(** * run_deployment.py: the deployment supervisor of the F prime GDS

    A shallow embedding of [fprime_gds/executables/run_deployment.py] and the
    properties of its launch plan, its launchers and its supervisor loop.

    The module starts child processes through collaborators that live
    outside of it ([run_wrapped_application], the argument parsers, the
    OpenMCT bridge, [webbrowser], the file system).  Their answers are taken
    from a record of oracles, and every call the module makes to them is
    recorded in a trace of events, so that statements such as "no process is
    started" or "the browser is opened" are statements about that trace. *)

From Stdlib Require Import ZArith Ascii String List Lia DecimalString.
From stdpp Require Import gmap strings list fin_maps.

Open Scope string_scope.
Open Scope list_scope.

(** ** Python values the module manipulates *)

(** [pathlib.Path], as far as [launch_app] looks at it: the [name] attribute
    and the result of [absolute()]. *)
Record Path := { path_name : string; path_absolute : string }.

(** The namespace returned by [parse_args], with the attributes that
    [run_deployment.py] reads. *)
Record Namespace := {
  zmq : bool;
  adapter : string;
  app : option Path;
  openmct : bool;
  gui : string;
  gui_addr : string;
  gui_port : Z;
  tts_addr : string;
  tts_port : Z;
  logs : string;
  port : Z;
  address : string;
  dictionary : string
}.

(** A running child process, as [subprocess.Popen] hands it out. *)
Definition proc := nat.

(** Exceptions.  [KeyboardInterrupt] derives from [BaseException] only; the
    other three classes derive from [Exception]. *)
Inductive exn :=
| KeyboardInterrupt
| ImportError (msg : string)
| AppWrapperException (msg : string)
| OtherException (msg : string).

Definition is_Exception (e : exn) : bool :=
  match e with
  | KeyboardInterrupt => false
  | _ => true
  end.

Definition is_AppWrapperException (e : exn) : bool :=
  match e with
  | AppWrapperException _ => true
  | _ => false
  end.

(** [str(exc)] *)
Definition str_exn (e : exn) : string :=
  match e with
  | KeyboardInterrupt => ""
  | ImportError m | AppWrapperException m | OtherException m => m
  end.

(** The value of a call: it returns or it raises. *)
Inductive result (A : Type) :=
| Ok (a : A)
| Raise (e : exn).
Arguments Ok {A} a.
Arguments Raise {A} e.

(** ** Strings *)

(** [str(n)] for an [int]. *)
Definition str_int (n : Z) : string := NilZero.string_of_int (Z.to_int n).

(** [sep.join(l)] *)
Definition join (sep : string) (l : list string) : string := String.concat sep l.

(** [s.split(c)] for a separator of one character. *)
Fixpoint split (c : ascii) (s : string) : list string :=
  match s with
  | EmptyString => [ EmptyString ]
  | String a s' =>
      if Ascii.eqb a c then EmptyString :: split c s'
      else match split c s' with
           | h :: t => String a h :: t
           | [] => [ String a EmptyString ]
           end
  end.

(** Number of occurrences of a character, and [c in s]. *)
Fixpoint count_char (c : ascii) (s : string) : nat :=
  match s with
  | EmptyString => 0
  | String a s' => (if Ascii.eqb a c then 1 else 0) + count_char c s'
  end.

Definition has_char (c : ascii) (s : string) : bool :=
  negb (Nat.eqb (count_char c s) 0).

(** [x in l] for a list of strings. *)
Definition mem (x : string) (l : list string) : bool :=
  existsb (String.eqb x) l.

(** The characters [str.strip()] removes among the first 128 code points. *)
Definition is_space (a : ascii) : bool :=
  let n := nat_of_ascii a in
  (Nat.leb 9 n && Nat.leb n 13) || (Nat.leb 28 n && Nat.leb n 32).

Fixpoint lstrip (s : string) : string :=
  match s with
  | String a s' => if is_space a then lstrip s' else s
  | EmptyString => EmptyString
  end.

Fixpoint rstrip (s : string) : string :=
  match s with
  | String a s' =>
      match rstrip s' with
      | EmptyString => if is_space a then EmptyString else String a EmptyString
      | r => String a r
      end
  | EmptyString => EmptyString
  end.

Definition strip (s : string) : string := rstrip (lstrip s).

(** [os.path.join(a, p)] on a POSIX host. *)
Definition os_path_join (a p : string) : string :=
  match p with
  | String "/" _ => p
  | _ =>
      match String.length a with
      | O => p
      | S n =>
          if String.eqb (String.substring n 1 a) "/" then a +:+ p
          else a +:+ "/" +:+ p
      end
  end.

(** ** Effects: a trace of calls to the outside, and exceptions *)

Inductive stream := stdout | stderr.

(** What the module does to the outside world.  [EvRun] is a call of
    [run_wrapped_application(cmd, logfile, env, launch_time)]; [EvWait] and
    [EvTerminate] are the [wait()] and [terminate()] operations of a process
    handle. *)
Inductive event :=
| EvPrint (file : stream) (text : string)
| EvRun (cmd : list string) (logfile : option string)
        (env : option (gmap string string)) (launch_time : Z)
| EvOpen (path : string)
| EvBrowser (url : string)
| EvJsonifier (dictionary : string)
| EvWriteJson (name : string)
| EvOpenMCTServer
| EvWait (p : proc)
| EvTerminate (p : proc).

(** A computation: the events it performed, and how it ended. *)
Definition M (A : Type) : Type := (list event * result A)%type.

Definition trace {A} (m : M A) : list event := fst m.
Definition outcome {A} (m : M A) : result A := snd m.

#[global] Instance M_ret : MRet M := fun A a => ([], Ok a).

#[global] Instance M_bind : MBind M := fun A B f m =>
  match m with
  | (t, Ok a) => let '(t', r) := f a in (t ++ t', r)
  | (t, Raise e) => (t, Raise e)
  end.

Definition raise {A} (e : exn) : M A := ([], Raise e).
Definition emit (ev : event) : M unit := ([ev], Ok tt).
(** A call to a collaborator: the event, and the collaborator's answer. *)
Definition call {A} (ev : event) (r : result A) : M A := ([ev], r).

(** [try: m  except ...: h]; [h e = None] when no clause matches [e]. *)
Definition try_except {A} (m : M A) (h : exn -> option (M A)) : M A :=
  match m with
  | (t, Ok a) => (t, Ok a)
  | (t, Raise e) =>
      match h e with
      | Some k => let '(t', r) := k in (t ++ t', r)
      | None => (t, Raise e)
      end
  end.

(** [[f(x) for f in fs]] *)
Fixpoint comprehension {A B} (x : A) (fs : list (A -> M B)) : M (list B) :=
  match fs with
  | [] => mret []
  | f :: fs' => b ← f x; bs ← comprehension x fs'; mret (b :: bs)
  end.

(** [l[-1]] *)
Definition item_last {A} (l : list A) : M A :=
  match last l with
  | Some a => mret a
  | None => raise (OtherException "list index out of range")
  end.

(** ** The collaborators *)

Record World := {
  sys_executable : string;
  os_environ : gmap string string;
  (** whether [import fprime_openmct] succeeded *)
  fprime_openmct : bool;
  (** [str(cmd)] *)
  str_cmd : list string -> string;
  (** [StandardPipelineParser().reproduce_cli_args], and the same for
      [CommParser] and [OpenMCTTelemetryPollerParser] *)
  std_pipeline_args : Namespace -> list string;
  comm_args : Namespace -> list string;
  poller_args : Namespace -> list string;
  run_wrapped_application :
    list string -> option string -> option (gmap string string) -> Z -> result proc;
  (** [open(logfile)] and the iteration over its lines: the lines read, and
      the exception that ended the reading, if any (no line at all when the
      file cannot be opened) *)
  read_log : string -> list string * option exn;
  (** [TopologyAppDictionaryJSONifier(dictionary)] and its two writers *)
  jsonifier : string -> result unit;
  write_json : string -> result unit;
  (** [ServerConfig().launch_openmct_server()] *)
  launch_openmct_server : result proc;
  (** [process.wait()] *)
  wait : proc -> result Z
}.

Section RunDeployment.

Variable w : World.

Definition BASE_MODULE_ARGUMENTS : list string := [sys_executable w; "-u"; "-m"].

(** The body of the inner [try] of [launch_process]. *)
Definition replay_log (logfile : option string) : M unit :=
  match logfile with
  | None => mret tt
  | Some path =>
      let '(lines, err) := read_log w path in
      (EvOpen path :: map (fun line => EvPrint stderr ("    [LOG] " +:+ strip line)) lines,
       match err with
       | None => Ok tt
       | Some e => Raise e
       end)
  end.

Definition launch_process (cmd : list string) (logfile : option string)
    (name : option string) (env : option (gmap string string))
    (launch_time : option Z) : M proc :=
  let name := default (str_cmd w cmd) name in
  let launch_time := default 5%Z launch_time in
  emit (EvPrint stdout ("[INFO] Ensuring " +:+ name +:+ " is stable for at least "
                        +:+ str_int launch_time +:+ " seconds"));;
  try_except
    (call (EvRun cmd logfile env launch_time)
          (run_wrapped_application w cmd logfile env launch_time))
    (fun awe =>
       if is_AppWrapperException awe then
         Some (emit (EvPrint stderr ("[ERROR] " +:+ str_exn awe +:+ "."));;
               try_except (replay_log logfile)
                 (fun e => if is_Exception e then Some (mret tt) else None);;
               let msg := "Failed to run " +:+ name in
               raise (AppWrapperException msg))
       else None).

Definition launch_tts (parsed_args : Namespace) : M proc :=
  let tts_log := os_path_join (logs parsed_args) "ThreadedTCP.log" in
  let tts_cmd := BASE_MODULE_ARGUMENTS ++
    [ "fprime_gds.executables.tcpserver";
      "--port"; str_int (tts_port parsed_args);
      "--host"; tts_addr parsed_args ] in
  launch_process tts_cmd (Some tts_log) (Some "TCP Server") None None.

(** The three local values of [launch_html]. *)
Definition html_reproduced_arguments (parsed_args : Namespace) : list string :=
  let reproduced_arguments := std_pipeline_args w parsed_args in
  if negb (mem "--log-directly" reproduced_arguments)
  then reproduced_arguments ++ ["--log-directly"]
  else reproduced_arguments.

Definition flask_env (parsed_args : Namespace) : gmap string string :=
  <["SERVE_LOGS" := "YES"]>
    (<["STANDARD_PIPELINE_ARGUMENTS" := join "|" (html_reproduced_arguments parsed_args)]>
       (<["FLASK_APP" := "fprime_gds.flask.app"]> (os_environ w))).

Definition gse_args (parsed_args : Namespace) : list string :=
  BASE_MODULE_ARGUMENTS ++
    [ "flask"; "run";
      "--host"; gui_addr parsed_args;
      "--port"; str_int (gui_port parsed_args) ].

Definition launch_html (parsed_args : Namespace) : M proc :=
  ret ← launch_process (gse_args parsed_args) None (Some "HTML GUI")
          (Some (flask_env parsed_args)) (Some 2%Z);
  (if String.eqb (gui parsed_args) "html"
   then emit (EvBrowser ("http://" +:+ gui_addr parsed_args +:+ ":"
                         +:+ str_int (gui_port parsed_args) +:+ "/"))
   else mret tt);;
  mret ret.

Definition launch_app (parsed_args : Namespace) : M proc :=
  match app parsed_args with
  | None => raise (OtherException "'NoneType' object has no attribute 'name'")
  | Some app_path =>
      let logfile := os_path_join (logs parsed_args) (path_name app_path +:+ ".log") in
      let app_cmd := [ path_absolute app_path; "-p"; str_int (port parsed_args);
                       "-a"; address parsed_args ] in
      launch_process app_cmd (Some logfile)
        (Some (path_name app_path +:+ " Application")) None (Some 1%Z)
  end.

(** The command of [launch_comm]. *)
Definition comm_arguments (parsed_args : Namespace) : list string :=
  let arguments := comm_args w parsed_args in
  if negb (mem "--log-directly" arguments)
  then arguments ++ ["--log-directly"]
  else arguments.

Definition comm_cmd (parsed_args : Namespace) : list string :=
  BASE_MODULE_ARGUMENTS ++ ["fprime_gds.executables.comm"] ++ comm_arguments parsed_args.

Definition launch_comm (parsed_args : Namespace) : M proc :=
  launch_process (comm_cmd parsed_args) None
    (Some ("comm[" +:+ adapter parsed_args +:+ "] Application")) None (Some 1%Z).

Definition launch_openmct (parsed_args : Namespace) : M proc :=
  if fprime_openmct w
  then call EvOpenMCTServer (launch_openmct_server w)
  else raise (OtherException "name 'ServerConfig' is not defined").

Definition poll_telem (parsed_args : Namespace) : M proc :=
  let app_cmd := BASE_MODULE_ARGUMENTS ++ ["fprime_openmct.fprime_telem_poller"]
                 ++ std_pipeline_args w parsed_args ++ poller_args w parsed_args in
  launch_process app_cmd None (Some "OpenMCT Poller") None (Some 1%Z).

(** [main], up to the [try] statement: the list of launchers. *)
Definition main_launchers (parsed_args : Namespace) : M (list (Namespace -> M proc)) :=
  let launchers := [] in
  let launchers :=
    if negb (zmq parsed_args) then launchers ++ [launch_tts] else launchers in
  let launchers :=
    if negb (String.eqb (adapter parsed_args) "none")
    then launchers ++ [launch_comm] else launchers in
  launchers ←
    match app parsed_args with
    | Some _ =>
        if String.eqb (adapter parsed_args) "ip"
        then mret (launchers ++ [launch_app])
        else emit (EvPrint stdout "[WARNING] App cannot be auto-launched without IP adapter");;
             mret launchers
    | None => mret launchers
    end;
  let launchers := launchers ++ [launch_html] in
  if openmct parsed_args then
    (if fprime_openmct w then mret tt
     else raise (ImportError
       "FPrime-OpenMCT Bridge not installed. Please install fprime_openmct with pip"));;
    call (EvJsonifier (dictionary parsed_args)) (jsonifier w (dictionary parsed_args));;
    call (EvWriteJson "FPrimeDeploymentTopologyAppDictionary")
         (write_json w "FPrimeDeploymentTopologyAppDictionary");;
    call (EvWriteJson "initial_states") (write_json w "initial_states");;
    mret (launchers ++ [launch_openmct; poll_telem])
  else mret launchers.

(** The [try] statement of [main] and the two [return]s. *)
Definition supervise (parsed_args : Namespace)
    (launchers : list (Namespace -> M proc)) : M Z :=
  try_except
    (procs ← comprehension parsed_args launchers;
     emit (EvPrint stdout "[INFO] F prime is now running. CTRL-C to shutdown all components.");;
     last_proc ← item_last procs;
     call (EvWait last_proc) (wait w last_proc);;
     mret 0%Z)
    (fun exc =>
       match exc with
       | KeyboardInterrupt =>
           Some (emit (EvPrint stdout "[INFO] CTRL-C received. Exiting.");; mret 0%Z)
       | _ =>
           if is_Exception exc
           then Some (emit (EvPrint stderr ("[INFO] Shutting down F prime due to error. "
                                            +:+ str_exn exc));;
                      mret 1%Z)
           else None
       end).

Definition main (parsed_args : Namespace) : M Z :=
  launchers ← main_launchers parsed_args;
  supervise parsed_args launchers.

End RunDeployment.

(** ** Concrete configurations and collaborators, for examples *)

Module Sample.

Definition parsed (adapter_kind gui_kind : string) (app_path : option Path)
    (use_zmq use_openmct : bool) : Namespace :=
  {| zmq := use_zmq; adapter := adapter_kind; app := app_path;
     openmct := use_openmct; gui := gui_kind;
     gui_addr := "127.0.0.1"; gui_port := 5000;
     tts_addr := "0.0.0.0"; tts_port := 50050;
     logs := "/tmp/logs"; port := 50000; address := "127.0.0.1";
     dictionary := "/fsw/Top/RefTopologyAppDictionary.xml" |}.

Definition ref_app : Path := {| path_name := "Ref"; path_absolute := "/fsw/bin/Ref" |}.

(** A host on which the commands accepted by [stable] survive their window
    (the handle is the length of the command line) and the others exit early;
    no log file can be opened; the final wait ends as [waited]. *)
Definition world (stable : list string -> bool) (bridge : bool)
    (waited : result Z) : World :=
  {| sys_executable := "/usr/bin/python3";
     os_environ := {[ "HOME" := "/root" ]};
     fprime_openmct := bridge;
     str_cmd := join " ";
     std_pipeline_args := fun a => ["--dictionary"; dictionary a];
     comm_args := fun a => ["--comm-adapter"; adapter a];
     poller_args := fun _ => ["--openmct-uri"; "localhost:8085"];
     run_wrapped_application := fun cmd _ _ _ =>
       if stable cmd then Ok (length cmd)
       else Raise (AppWrapperException "Failed to run application");
     read_log := fun _ => ([], Some (OtherException "No such file or directory"));
     jsonifier := fun _ => Ok tt;
     write_json := fun _ => Ok tt;
     launch_openmct_server := Ok 1;
     wait := fun _ => waited |}.

Definition all_stable (cmd : list string) : bool := true.
Definition flask_unstable (cmd : list string) : bool := negb (mem "flask" cmd).

End Sample.

(** ** Vocabulary of the properties *)

(** The plan in the words of the specification: relay unless zmq, adapter
    unless its kind is "none", application when a path is configured and the
    adapter is "ip", the GUI, then the OpenMCT server and poller when the
    bridge is enabled. *)
Definition plan_spec (w : World) (a : Namespace) : list (Namespace -> M proc) :=
  (if zmq a then [] else [launch_tts w])
  ++ (if decide (adapter a = "none") then [] else [launch_comm w])
  ++ (if decide (is_Some (app a) ∧ adapter a = "ip") then [launch_app w] else [])
  ++ [launch_html w]
  ++ (if openmct a then [launch_openmct w; poll_telem w] else []).

(** The bridge is off, or its package is there and the OpenMCT files were
    written. *)
Definition bridge_ready (w : World) (a : Namespace) : Prop :=
  openmct a = true ->
  fprime_openmct w = true
  ∧ jsonifier w (dictionary a) = Ok tt
  ∧ write_json w "FPrimeDeploymentTopologyAppDictionary" = Ok tt
  ∧ write_json w "initial_states" = Ok tt.

(** The events that start a child process. *)
Definition starts_process (ev : event) : bool :=
  match ev with
  | EvRun _ _ _ _ | EvOpenMCTServer => true
  | _ => false
  end.

Definition started (t : list event) : list event := List.filter starts_process t.

Definition shutdown_message (e : exn) : event :=
  EvPrint stderr ("[INFO] Shutting down F prime due to error. " +:+ str_exn e).

(** The events of the diagnostics reporter: messages and the reopening of
    the log. *)
Definition diagnostic (ev : event) : bool :=
  match ev with
  | EvPrint _ _ | EvOpen _ => true
  | _ => false
  end.

Definition stable_message (name : string) (launch_time : Z) : event :=
  EvPrint stdout ("[INFO] Ensuring " +:+ name +:+ " is stable for at least "
                  +:+ str_int launch_time +:+ " seconds").

(** The [launch_time]s handed to [run_wrapped_application], in order. *)
Definition windows (t : list event) : list Z :=
  flat_map (fun ev => match ev with EvRun _ _ _ lt => [lt] | _ => [] end) t.

(** The handles that receive a terminate request, in order, and the number
    of requests a handle receives. *)
Definition terminations (t : list event) : list proc :=
  flat_map (fun ev => match ev with EvTerminate p => [p] | _ => [] end) t.

Definition terminate_requests (p : proc) (t : list event) : nat :=
  count_occ Nat.eq_dec (terminations t) p.

(** The six launchers of the module. *)
Definition launchers_of (w : World) : list (Namespace -> M proc) :=
  [launch_tts w; launch_comm w; launch_app w; launch_html w; launch_openmct w;
   poll_telem w].

(** C4 as the specification states it: every handle obtained before the
    failing step receives exactly one terminate request. *)
Definition terminated_exactly_once : Prop :=
  forall (w : World) (a : Namespace) (pre post : list (Namespace -> M proc))
         (f : Namespace -> M proc) (procs : list proc) (e : exn),
    outcome (main_launchers w a) = Ok (pre ++ f :: post) ->
    outcome (comprehension a pre) = Ok procs ->
    outcome (f a) = Raise e -> is_Exception e = true ->
    forall p, In p procs -> terminate_requests p (trace (main w a)) = 1.

(** The command lines and the environments handed to
    [run_wrapped_application], in order. *)
Definition commands (t : list event) : list (list string) :=
  flat_map (fun ev => match ev with EvRun cmd _ _ _ => [cmd] | _ => [] end) t.

Definition environments (t : list event) : list (option (gmap string string)) :=
  flat_map (fun ev => match ev with EvRun _ _ env _ => [env] | _ => [] end) t.

(** [l'] is [l] with the flag appended when [l] does not have it. *)
Definition flag_ensured (l l' : list string) : Prop :=
  In "--log-directly" l'
  /\ (~ In "--log-directly" l -> l' = l ++ ["--log-directly"])
  /\ (In "--log-directly" l -> l' = l)
  /\ count_occ string_dec l' "--log-directly"
     = Nat.max 1 (count_occ string_dec l "--log-directly").

(** C6 as the specification states it: the command lines launched for the
    communication adapter and for the web GUI contain the flag. *)
Definition flag_on_command_lines : Prop :=
  forall (w : World) (a : Namespace),
    (forall cmd, In cmd (commands (trace (launch_comm w a))) ->
                 In "--log-directly" cmd)
    /\ (forall cmd, In cmd (commands (trace (launch_html w a))) ->
                    In "--log-directly" cmd).

(** The addresses at which [webbrowser.open] is called, in order. *)
Definition browser_urls (t : list event) : list string :=
  flat_map (fun ev => match ev with EvBrowser url => [url] | _ => [] end) t.

(** C8 as the specification states it: after a successful launch of the web
    GUI the browser is opened if and only if the GUI mode is "browser". *)
Definition browser_iff_mode_browser : Prop :=
  forall (w : World) (a : Namespace) (p : proc),
    run_wrapped_application w (gse_args w a) None (Some (flask_env w a)) 2 = Ok p ->
    browser_urls (trace (launch_html w a)) <> [] <-> gui a = "browser".

(** The events a launcher may perform: messages, the reopening of a log,
    the start of a process, the browser. *)
Definition launch_event (ev : event) : bool :=
  match ev with
  | EvPrint _ _ | EvOpen _ | EvRun _ _ _ _ | EvBrowser _ | EvOpenMCTServer => true
  | _ => false
  end.

(** The events that touch the OpenMCT bridge package. *)
Definition bridge_event (ev : event) : bool :=
  match ev with
  | EvJsonifier _ | EvWriteJson _ | EvOpenMCTServer => true
  | _ => false
  end.

Definition bridge_events (t : list event) : list event := List.filter bridge_event t.

(** The handles waited upon, the log files handed to
    [run_wrapped_application], the logs reopened and the messages printed,
    in order. *)
Definition waits (t : list event) : list proc :=
  flat_map (fun ev => match ev with EvWait p => [p] | _ => [] end) t.

Definition logfiles (t : list event) : list (option string) :=
  flat_map (fun ev => match ev with EvRun _ logfile _ _ => [logfile] | _ => [] end) t.

Definition reopened (t : list event) : list string :=
  flat_map (fun ev => match ev with EvOpen path => [path] | _ => [] end) t.

Definition printed (t : list event) : list (stream * string) :=
  flat_map (fun ev => match ev with EvPrint file text => [(file, text)] | _ => [] end) t.

(** How many launchers the comprehension calls: all of them, or those up to
    and including the first one that raises. *)
Fixpoint steps_run {A B} (x : A) (fs : list (A -> M B)) : nat :=
  match fs with
  | [] => 0
  | f :: fs' =>
      match outcome (f x) with
      | Ok _ => S (steps_run x fs')
      | Raise _ => 1
      end
  end.

(** * Properties *)

(** ** Examples of the string functions *)

Example split_example : split "|" "a|b||c" = ["a"; "b"; ""; "c"].
Proof. reflexivity. Qed.

Example strip_example : strip "  [x] y
" = "[x] y".
Proof. reflexivity. Qed.

Example os_path_join_example :
  os_path_join "/tmp/logs" "ThreadedTCP.log" = "/tmp/logs/ThreadedTCP.log"
  /\ os_path_join "logs/" "a.log" = "logs/a.log"
  /\ str_int 50050 = "50050".
Proof. repeat split. Qed.

(** ** Laws of the effect model *)

Ltac msimpl :=
  unfold mbind, M_bind, mret, M_ret, raise, emit, call, try_except, item_last,
    outcome, trace in *;
  simpl in *.

Section Laws.

Context {A B : Type}.

Lemma bind_Ok (m : M A) (f : A -> M B) (a : A) :
  outcome m = Ok a ->
  m ≫= f = (trace m ++ trace (f a), outcome (f a)).
Proof.
  destruct m as [t r]; simpl; intros ->.
  unfold mbind, M_bind. by destruct (f a).
Qed.

Lemma bind_Raise (m : M A) (f : A -> M B) (e : exn) :
  outcome m = Raise e -> m ≫= f = (trace m, Raise e).
Proof. destruct m as [t r]; simpl; intros ->. reflexivity. Qed.

End Laws.

(** The list comprehension stops at the first launcher that raises: the
    launchers behind it are not called. *)
Lemma comprehension_app_Raise {A B} (x : A) (pre post : list (A -> M B))
    (f : A -> M B) (bs : list B) (e : exn) :
  outcome (comprehension x pre) = Ok bs ->
  outcome (f x) = Raise e ->
  comprehension x (pre ++ f :: post)
  = (trace (comprehension x pre) ++ trace (f x), Raise e).
Proof.
  revert bs. induction pre as [|g pre IH]; intros bs Hpre Hf; simpl.
  - rewrite (bind_Raise _ _ e Hf). reflexivity.
  - simpl in Hpre.
    destruct (g x) as [tg [b|eg]] eqn:Hg; [|msimpl; discriminate].
    destruct (comprehension x pre) as [tp [bs'|ep]] eqn:Hp;
      [|msimpl; discriminate].
    specialize (IH bs' eq_refl Hf). rewrite IH.
    destruct (f x) as [tf rf]. msimpl. subst rf.
    by rewrite app_nil_r, <- app_assoc.
Qed.

Lemma comprehension_length {A B} (x : A) (fs : list (A -> M B)) (bs : list B) :
  outcome (comprehension x fs) = Ok bs -> length bs = length fs.
Proof.
  revert bs. induction fs as [|f fs IH]; intros bs; simpl.
  - msimpl. by intros [= <-].
  - destruct (f x) as [tf [b|e]]; msimpl; [|discriminate].
    destruct (comprehension x fs) as [tp [bs'|e]]; msimpl; [|discriminate].
    intros [= <-]. simpl. f_equal. by apply IH.
Qed.

(** ** The launch plan *)

Lemma decide_eqb {T} (s t : string) (x y : T) :
  (if decide (s = t) then x else y) = (if String.eqb s t then x else y).
Proof. destruct (String.eqb_spec s t); by case_decide. Qed.

Lemma decide_app_ip {T} (a : Namespace) (x y : T) :
  (if decide (is_Some (app a) ∧ adapter a = "ip") then x else y)
  = match app a with
    | Some _ => if String.eqb (adapter a) "ip" then x else y
    | None => y
    end.
Proof.
  destruct (String.eqb_spec (adapter a) "ip"), (app a) as [p|];
    case_decide as Hd; try reflexivity.
  - destruct Hd. by split; [eexists|].
  - by destruct Hd as [[? [=]] _].
  - by destruct Hd.
  - by destruct Hd.
Qed.

Ltac bridge_cases w a :=
  destruct (openmct a);
  [ destruct (fprime_openmct w);
    [ destruct (jsonifier w (dictionary a)) as [[]|];
      [ destruct (write_json w "FPrimeDeploymentTopologyAppDictionary") as [[]|];
        [ destruct (write_json w "initial_states") as [[]|] | ] | ] | ] | ].

Ltac core_cases a :=
  destruct (String.eqb (adapter a) "none");
  destruct (String.eqb (adapter a) "ip");
  destruct (zmq a); destruct (app a);
  msimpl.

Lemma main_launchers_outcome (w : World) (a : Namespace) fs :
  outcome (main_launchers w a) = Ok fs -> fs = plan_spec w a.
Proof.
  unfold main_launchers, plan_spec. rewrite decide_eqb, decide_app_ip.
  bridge_cases w a; core_cases a; intros Hout; by simplify_eq.
Qed.

Lemma main_launchers_ready (w : World) (a : Namespace) :
  bridge_ready w a -> outcome (main_launchers w a) = Ok (plan_spec w a).
Proof.
  unfold main_launchers, plan_spec, bridge_ready.
  rewrite decide_eqb, decide_app_ip.
  bridge_cases w a; intros Hb;
    try (destruct (Hb eq_refl) as (? & ? & ? & ?); discriminate);
    by core_cases a.
Qed.

(** C1. For every resolved configuration the launch plan is exactly the
    ordered sequence: messaging relay (iff zmq is not selected),
    communication adapter (iff the adapter kind is not "none"),
    application (iff an application path is configured and the adapter kind
    is "ip"), web GUI (always), then OpenMCT server and telemetry poller (iff
    the bridge is enabled).  Whenever [main] gets to its list of launchers,
    the list is [plan_spec]; it gets there whenever the bridge is off or
    usable.  In particular, with the relay transport, adapter "none" with no
    application and no bridge gives [relay, GUI], and adapter "ip" with an
    application path and no bridge gives [relay, adapter, application, GUI]. *)
Theorem launch_plan_exact (w : World) (a : Namespace) :
  (forall fs, outcome (main_launchers w a) = Ok fs -> fs = plan_spec w a)
  /\ (bridge_ready w a -> outcome (main_launchers w a) = Ok (plan_spec w a))
  /\ (zmq a = false -> adapter a = "none" -> app a = None -> openmct a = false ->
      outcome (main_launchers w a) = Ok [launch_tts w; launch_html w])
  /\ (zmq a = false -> adapter a = "ip" -> is_Some (app a) -> openmct a = false ->
      outcome (main_launchers w a)
      = Ok [launch_tts w; launch_comm w; launch_app w; launch_html w]).
Proof.
  split; [apply main_launchers_outcome|].
  split; [apply main_launchers_ready|].
  split.
  - intros Hz Ha Hp Ho.
    rewrite main_launchers_ready by (intros Hb; congruence).
    unfold plan_spec. rewrite decide_eqb, decide_app_ip, Hz, Ha, Hp, Ho.
    reflexivity.
  - intros Hz Ha [p Hp] Ho.
    rewrite main_launchers_ready by (intros Hb; congruence).
    unfold plan_spec. rewrite decide_eqb, decide_app_ip, Hz, Ha, Hp, Ho.
    reflexivity.
Qed.

Lemma launch_plan_exact_witness :
  let w := Sample.world Sample.all_stable false (Ok 0%Z) in
  outcome (main_launchers w (Sample.parsed "none" "html" None false false))
  = Ok [launch_tts w; launch_html w]
  /\ outcome (main_launchers w
                (Sample.parsed "ip" "html" (Some Sample.ref_app) false false))
     = Ok [launch_tts w; launch_comm w; launch_app w; launch_html w].
Proof.
  intros w. split.
  - apply (launch_plan_exact w (Sample.parsed "none" "html" None false false));
      reflexivity.
  - apply (launch_plan_exact w
             (Sample.parsed "ip" "html" (Some Sample.ref_app) false false));
      try reflexivity.
    by eexists.
Defined.

(** ** Processes started *)

(** C2. With the bridge enabled and the [fprime_openmct] package missing,
    [main] raises the configuration error ([ImportError]) and has started no
    process at all, the messaging relay included. *)
Theorem bridge_without_package (w : World) (a : Namespace) :
  openmct a = true -> fprime_openmct w = false ->
  outcome (main w a)
  = Raise (ImportError
      "FPrime-OpenMCT Bridge not installed. Please install fprime_openmct with pip")
  /\ started (trace (main w a)) = [].
Proof.
  intros Ho Hp. unfold main, main_launchers. rewrite Ho, Hp.
  by core_cases a.
Qed.

Lemma bridge_without_package_witness :
  let w := Sample.world Sample.all_stable false (Ok 0%Z) in
  let a := Sample.parsed "ip" "html" (Some Sample.ref_app) false true in
  outcome (main w a)
  = Raise (ImportError
      "FPrime-OpenMCT Bridge not installed. Please install fprime_openmct with pip")
  /\ started (trace (main w a)) = [].
Proof.
  intros w a. apply (bridge_without_package w a); reflexivity.
Defined.

(** ** The terminal process *)

Lemma plan_spec_html (w : World) (a : Namespace) : In (launch_html w) (plan_spec w a).
Proof.
  unfold plan_spec. rewrite !in_app_iff. do 3 right. left. by left.
Qed.

(** C10. Every launch plan contains the web GUI step and so is not empty;
    when every step succeeds there are as many handles as steps, so the list
    of handles is not empty and [procs[-1]] is defined: it returns a handle
    and does not raise. *)
Theorem terminal_process_defined (w : World) (a : Namespace) fs :
  outcome (main_launchers w a) = Ok fs ->
  In (launch_html w) fs
  /\ fs <> []
  /\ forall procs, outcome (comprehension a fs) = Ok procs ->
       procs <> [] /\ exists p, last procs = Some p /\ item_last procs = mret p.
Proof.
  intros Hfs. apply main_launchers_outcome in Hfs. subst fs.
  pose proof (plan_spec_html w a) as Hin.
  assert (Hne : plan_spec w a <> []) by (intros E; rewrite E in Hin; inversion Hin).
  split; [done|]. split; [done|].
  intros procs Hprocs. apply comprehension_length in Hprocs.
  assert (Hp : procs <> []).
  { intros ->. simpl in Hprocs. by destruct (plan_spec w a). }
  split; [done|].
  destruct (last procs) as [p|] eqn:Hl.
  - exists p. split; [done|]. unfold item_last. by rewrite Hl.
  - by apply last_None in Hl.
Qed.

Lemma terminal_process_defined_witness :
  let w := Sample.world Sample.all_stable false (Ok 0%Z) in
  let a := Sample.parsed "none" "html" None false false in
  In (launch_html w) [launch_tts w; launch_html w]
  /\ [launch_tts w; launch_html w] <> []
  /\ forall procs,
       outcome (comprehension a [launch_tts w; launch_html w]) = Ok procs ->
       procs <> [] /\ exists p, last procs = Some p /\ item_last procs = mret p.
Proof.
  intros w a. apply (terminal_process_defined w a). reflexivity.
Defined.

(** ** The supervisor loop *)

Section Supervise.

Variables (w : World) (a : Namespace).

(** A launcher raised: the handler of [main] runs right after it. *)
Lemma supervise_launch_Raise fs (e : exn) :
  outcome (comprehension a fs) = Raise e ->
  supervise w a fs
  = match e with
    | KeyboardInterrupt =>
        (trace (comprehension a fs)
           ++ [EvPrint stdout "[INFO] CTRL-C received. Exiting."], Ok 0%Z)
    | _ => (trace (comprehension a fs) ++ [shutdown_message e], Ok 1%Z)
    end.
Proof.
  intros He. unfold supervise.
  destruct (comprehension a fs) as [t r]. msimpl. subst r.
  by destruct e.
Qed.

(** Every launcher returned: the supervisor waits for the last handle. *)
Lemma supervise_launch_Ok fs procs p :
  outcome (comprehension a fs) = Ok procs -> last procs = Some p ->
  supervise w a fs
  = let running :=
      trace (comprehension a fs)
        ++ [EvPrint stdout
              "[INFO] F prime is now running. CTRL-C to shutdown all components.";
            EvWait p] in
    match wait w p with
    | Ok _ => (running, Ok 0%Z)
    | Raise KeyboardInterrupt =>
        (running ++ [EvPrint stdout "[INFO] CTRL-C received. Exiting."], Ok 0%Z)
    | Raise e => (running ++ [shutdown_message e], Ok 1%Z)
    end.
Proof.
  intros Hp Hl. unfold supervise.
  destruct (comprehension a fs) as [t r]. simpl in Hp. subst r.
  unfold mbind, M_bind, mret, M_ret, emit, call, item_last. rewrite Hl. cbn.
  destruct (wait w p) as [z|[]]; cbn; by rewrite <- ?app_assoc.
Qed.

Lemma supervise_returns fs :
  outcome (supervise w a fs) = Ok 0%Z \/ outcome (supervise w a fs) = Ok 1%Z.
Proof.
  destruct (comprehension a fs) as [t [procs|e]] eqn:Hc.
  - destruct (last procs) as [p|] eqn:Hl.
    + rewrite (supervise_launch_Ok fs procs p) by (by rewrite ?Hc).
      destruct (wait w p) as [z|[]]; simpl; auto.
    + unfold supervise. rewrite Hc. msimpl. rewrite Hl. by right.
  - rewrite (supervise_launch_Raise fs e) by (by rewrite Hc).
    destruct e; simpl; auto.
Qed.

Lemma main_supervise fs :
  outcome (main_launchers w a) = Ok fs ->
  main w a = (trace (main_launchers w a) ++ trace (supervise w a fs),
              outcome (supervise w a fs)).
Proof. intros Hfs. unfold main. by apply bind_Ok. Qed.

End Supervise.

(** C3. Once the launch plan is built, the outcome of [main] is 0 when the
    operator interrupts the wait on the terminal process, 1 when a launcher
    fails or the wait raises any other error, and there is no third outcome:
    [main] returns 0 or 1. *)
Theorem exit_code (w : World) (a : Namespace) fs :
  outcome (main_launchers w a) = Ok fs ->
  (forall procs p,
      outcome (comprehension a fs) = Ok procs -> last procs = Some p ->
      wait w p = Raise KeyboardInterrupt ->
      outcome (main w a) = Ok 0%Z)
  /\ (forall pre f post procs e,
      fs = pre ++ f :: post ->
      outcome (comprehension a pre) = Ok procs ->
      outcome (f a) = Raise e -> is_Exception e = true ->
      outcome (main w a) = Ok 1%Z)
  /\ (forall procs p e,
      outcome (comprehension a fs) = Ok procs -> last procs = Some p ->
      wait w p = Raise e -> is_Exception e = true ->
      outcome (main w a) = Ok 1%Z)
  /\ (outcome (main w a) = Ok 0%Z \/ outcome (main w a) = Ok 1%Z).
Proof.
  intros Hfs. rewrite (main_supervise w a fs Hfs). simpl.
  repeat split.
  - intros procs p Hc Hl Hw.
    rewrite (supervise_launch_Ok w a fs procs p Hc Hl), Hw. reflexivity.
  - intros pre f post procs e -> Hpre Hf He.
    rewrite (supervise_launch_Raise w a _ e).
    + by destruct e.
    + by rewrite (comprehension_app_Raise a pre post f procs e).
  - intros procs p e Hc Hl Hw He.
    rewrite (supervise_launch_Ok w a fs procs p Hc Hl), Hw. by destruct e.
  - apply supervise_returns.
Qed.

Lemma exit_code_witness :
  outcome (main (Sample.world Sample.all_stable false (Raise KeyboardInterrupt))
             (Sample.parsed "none" "html" None false false)) = Ok 0%Z
  /\ outcome (main (Sample.world Sample.flask_unstable false (Ok 0%Z))
                (Sample.parsed "none" "html" None false false)) = Ok 1%Z
  /\ outcome (main (Sample.world Sample.all_stable false
                      (Raise (OtherException "No child processes")))
                (Sample.parsed "none" "html" None false false)) = Ok 1%Z.
Proof.
  split; [|split].
  - set (w := Sample.world Sample.all_stable false (Raise KeyboardInterrupt)).
    set (a := Sample.parsed "none" "html" None false false).
    destruct (exit_code w a [launch_tts w; launch_html w] eq_refl) as (H & _).
    apply (H [8; 9] 9); reflexivity.
  - set (w := Sample.world Sample.flask_unstable false (Ok 0%Z)).
    set (a := Sample.parsed "none" "html" None false false).
    destruct (exit_code w a [launch_tts w; launch_html w] eq_refl) as (_ & H & _).
    apply (H [launch_tts w] (launch_html w) [] [8]
             (AppWrapperException "Failed to run HTML GUI")); reflexivity.
  - set (w := Sample.world Sample.all_stable false
                (Raise (OtherException "No child processes"))).
    set (a := Sample.parsed "none" "html" None false false).
    destruct (exit_code w a [launch_tts w; launch_html w] eq_refl) as (_ & _ & H & _).
    apply (H [8; 9] 9 (OtherException "No child processes")); reflexivity.
Defined.

(** ** The process launcher and its diagnostics *)

Section LaunchProcess.

Variable w : World.
Variables (cmd : list string) (logfile : option string) (name : option string)
  (env : option (gmap string string)) (launch_time : option Z).

Local Abbreviation the_name := (default (str_cmd w cmd) name).
Local Abbreviation window := (default 5%Z launch_time).

Lemma replay_log_diagnostic : Forall (fun ev => diagnostic ev = true) (trace (replay_log w logfile)).
Proof.
  unfold replay_log. destruct logfile as [path|]; [|by constructor].
  destruct (read_log w path) as [lines err]. simpl.
  constructor; [done|]. induction lines; simpl; by constructor.
Qed.

Lemma launch_process_Ok p :
  run_wrapped_application w cmd logfile env window = Ok p ->
  launch_process w cmd logfile name env launch_time
  = ([stable_message the_name window; EvRun cmd logfile env window], Ok p).
Proof.
  intros Hr. unfold launch_process. rewrite Hr. reflexivity.
Qed.

(** Any exception other than [AppWrapperException] passes through. *)
Lemma launch_process_other e :
  run_wrapped_application w cmd logfile env window = Raise e ->
  is_AppWrapperException e = false ->
  launch_process w cmd logfile name env launch_time
  = ([stable_message the_name window; EvRun cmd logfile env window], Raise e).
Proof.
  intros Hr He. unfold launch_process. rewrite Hr.
  msimpl. by rewrite He.
Qed.

(** The [except AppWrapperException] clause. *)
Lemma launch_process_failed msg :
  run_wrapped_application w cmd logfile env window = Raise (AppWrapperException msg) ->
  launch_process w cmd logfile name env launch_time
  = (stable_message the_name window :: EvRun cmd logfile env window
       :: EvPrint stderr ("[ERROR] " +:+ msg +:+ ".") :: trace (replay_log w logfile),
     match outcome (replay_log w logfile) with
     | Raise KeyboardInterrupt => Raise KeyboardInterrupt
     | _ => Raise (AppWrapperException ("Failed to run " +:+ the_name))
     end).
Proof.
  intros Hr. unfold launch_process. rewrite Hr.
  destruct (replay_log w logfile) as [t [[]|[]]]; msimpl;
    by rewrite ?app_nil_r.
Qed.

Lemma launch_process_trace :
  exists rest,
    trace (launch_process w cmd logfile name env launch_time)
    = stable_message the_name window :: EvRun cmd logfile env window :: rest
    /\ Forall (fun ev => diagnostic ev = true) rest.
Proof.
  destruct (run_wrapped_application w cmd logfile env window) as [p|e] eqn:Hr.
  - exists []. by rewrite (launch_process_Ok p Hr).
  - destruct (is_AppWrapperException e) eqn:He.
    + destruct e; try discriminate.
      eexists. rewrite (launch_process_failed msg Hr). simpl. split; [done|].
      constructor; [done|]. apply replay_log_diagnostic.
    + exists []. by rewrite (launch_process_other e Hr He).
Qed.

(** What a projection of the trace sees of a launch: the one call of
    [run_wrapped_application]. *)
Lemma launch_process_flat_map {X} (f : event -> list X) :
  (forall ev, diagnostic ev = true -> f ev = []) ->
  flat_map f (trace (launch_process w cmd logfile name env launch_time))
  = f (EvRun cmd logfile env window).
Proof.
  intros Hf. destruct launch_process_trace as (rest & -> & Hrest).
  simpl. rewrite (Hf (stable_message _ _)) by done. simpl.
  assert (flat_map f rest = []) as ->; [|apply app_nil_r].
  induction Hrest as [|ev rest Hev _ IH]; [done|].
  simpl. by rewrite (Hf ev Hev), IH.
Qed.

End LaunchProcess.

(** C5. When a launch fails within its stabilization window
    ([run_wrapped_application] raises [AppWrapperException]), the failure
    that [launch_process] raises names the dependent ("Failed to run" and its
    name), whatever happened while the log was reopened and read: an error in
    opening the file or in reading any of its lines is swallowed and does not
    take the place of the launch failure. *)
Theorem launch_failure_not_masked (w : World) (cmd : list string)
    (logfile name : option string) (env : option (gmap string string))
    (launch_time : option Z) (msg : string) :
  run_wrapped_application w cmd logfile env (default 5%Z launch_time)
  = Raise (AppWrapperException msg) ->
  (forall path e, logfile = Some path -> snd (read_log w path) = Some e ->
                  is_Exception e = true) ->
  outcome (launch_process w cmd logfile name env launch_time)
  = Raise (AppWrapperException ("Failed to run " +:+ default (str_cmd w cmd) name))
  /\ trace (launch_process w cmd logfile name env launch_time)
     = stable_message (default (str_cmd w cmd) name) (default 5%Z launch_time)
       :: EvRun cmd logfile env (default 5%Z launch_time)
       :: EvPrint stderr ("[ERROR] " +:+ msg +:+ ".")
       :: trace (replay_log w logfile).
Proof.
  intros Hr Hlog. rewrite (launch_process_failed w _ _ _ _ _ msg Hr). simpl.
  split; [|done].
  unfold replay_log. destruct logfile as [path|]; [|done].
  specialize (Hlog path). destruct (read_log w path) as [lines [e|]]; [|done].
  simpl in *. specialize (Hlog e eq_refl eq_refl). by destruct e.
Qed.

Lemma launch_failure_not_masked_witness :
  let w := Sample.world Sample.flask_unstable false (Ok 0%Z) in
  outcome (launch_process w ["flask"; "run"] (Some "/tmp/logs/flask.log")
             (Some "HTML GUI") None (Some 2%Z))
  = Raise (AppWrapperException "Failed to run HTML GUI")
  /\ outcome (launch_process w ["flask"] None None None None)
     = Raise (AppWrapperException "Failed to run flask").
Proof.
  intros w. split.
  - apply (launch_failure_not_masked w ["flask"; "run"] (Some "/tmp/logs/flask.log")
             (Some "HTML GUI") None (Some 2%Z) "Failed to run application").
    + reflexivity.
    + intros path e _ [= <-]. reflexivity.
  - apply (launch_failure_not_masked w ["flask"] None None None None
             "Failed to run application").
    + reflexivity.
    + intros path e [=].
Defined.

(** ** Stabilization windows *)

Lemma launch_process_windows w cmd logfile name env launch_time :
  windows (trace (launch_process w cmd logfile name env launch_time))
  = [default 5%Z launch_time].
Proof.
  unfold windows. rewrite launch_process_flat_map; [done|]. by intros [].
Qed.

Lemma launch_html_trace (w : World) (a : Namespace) :
  exists rest,
    trace (launch_html w a)
    = trace (launch_process w (gse_args w a) None (Some "HTML GUI")
               (Some (flask_env w a)) (Some 2%Z)) ++ rest
    /\ (rest = [] \/ exists url, rest = [EvBrowser url]).
Proof.
  unfold launch_html.
  destruct (launch_process w (gse_args w a) None (Some "HTML GUI")
              (Some (flask_env w a)) (Some 2%Z)) as [t [p|e]].
  - destruct (String.eqb (gui a) "html"); msimpl.
    + eexists. split; [done|]. right. by eexists.
    + exists []. split; [done|]. by left.
  - exists []. msimpl. split; [by rewrite app_nil_r | by left].
Qed.

(** C7. The stabilization window handed to the stability prober is 5 seconds
    by default and for the messaging relay, 2 seconds for the web GUI, and 1
    second for the communication adapter, the application and the telemetry
    poller; so every lightweight dependent gets between 1 and 2 seconds. *)
Theorem stabilization_windows (w : World) (a : Namespace) :
  (forall cmd logfile name env,
      windows (trace (launch_process w cmd logfile name env None)) = [5%Z])
  /\ windows (trace (launch_tts w a)) = [5%Z]
  /\ windows (trace (launch_html w a)) = [2%Z]
  /\ windows (trace (launch_comm w a)) = [1%Z]
  /\ (forall app_path, app a = Some app_path ->
        windows (trace (launch_app w a)) = [1%Z])
  /\ windows (trace (poll_telem w a)) = [1%Z]
  /\ (forall f lt,
        In f [launch_html w; launch_comm w; poll_telem w] ->
        In lt (windows (trace (f a))) -> (1 <= lt <= 2)%Z).
Proof.
  assert (Hhtml : windows (trace (launch_html w a)) = [2%Z]).
  { destruct (launch_html_trace w a) as (rest & -> & Hrest).
    unfold windows. rewrite flat_map_app. fold (windows
      (trace (launch_process w (gse_args w a) None (Some "HTML GUI")
                (Some (flask_env w a)) (Some 2%Z)))).
    rewrite launch_process_windows.
    destruct Hrest as [->|[url ->]]; reflexivity. }
  split; [intros; apply launch_process_windows|].
  split; [apply launch_process_windows|].
  split; [exact Hhtml|].
  split; [apply launch_process_windows|].
  split; [intros app_path Hp; unfold launch_app; rewrite Hp;
          apply launch_process_windows|].
  split; [apply launch_process_windows|].
  intros f lt Hf Hlt.
  assert (Hw : windows (trace (f a)) = [2%Z] \/ windows (trace (f a)) = [1%Z]).
  { destruct Hf as [<-|[<-|[<-|[]]]];
      [left; exact Hhtml | right; apply launch_process_windows ..]. }
  destruct Hw as [Hw|Hw]; rewrite Hw in Hlt; destruct Hlt as [<-|[]]; lia.
Qed.

Lemma stabilization_windows_witness :
  let w := Sample.world Sample.all_stable true (Ok 0%Z) in
  let a := Sample.parsed "ip" "html" (Some Sample.ref_app) false true in
  windows (trace (launch_app w a)) = [1%Z] /\ (1 <= 2 <= 2)%Z.
Proof.
  intros w a. split.
  - apply (stabilization_windows w a) with (app_path := Sample.ref_app).
    reflexivity.
  - apply (stabilization_windows w a) with (f := launch_html w).
    + left. reflexivity.
    + left. reflexivity.
Defined.

(** ** Terminate requests *)

Lemma terminations_app t1 t2 : terminations (t1 ++ t2) = terminations t1 ++ terminations t2.
Proof. apply flat_map_app. Qed.

Lemma launch_process_terminations w cmd logfile name env launch_time :
  terminations (trace (launch_process w cmd logfile name env launch_time)) = [].
Proof.
  unfold terminations. rewrite launch_process_flat_map; [done|]. by intros [].
Qed.

Lemma plan_spec_launchers (w : World) (a : Namespace) f :
  In f (plan_spec w a) -> In f (launchers_of w).
Proof.
  unfold plan_spec, launchers_of. rewrite !in_app_iff.
  destruct (zmq a), (openmct a); repeat case_decide; simpl; tauto.
Qed.

Lemma launcher_terminations (w : World) (a : Namespace) f :
  In f (launchers_of w) -> terminations (trace (f a)) = [].
Proof.
  intros [<-|[<-|[<-|[<-|[<-|[<-|[]]]]]]].
  - apply launch_process_terminations.
  - apply launch_process_terminations.
  - unfold launch_app. destruct (app a); [|done].
    apply launch_process_terminations.
  - destruct (launch_html_trace w a) as (rest & -> & Hrest).
    rewrite terminations_app, launch_process_terminations.
    by destruct Hrest as [->|[url ->]].
  - unfold launch_openmct. by destruct (fprime_openmct w).
  - apply launch_process_terminations.
Qed.

Lemma launch_process_head w cmd logfile name env launch_time :
  head (trace (launch_process w cmd logfile name env launch_time))
  = Some (stable_message (default (str_cmd w cmd) name) (default 5%Z launch_time)).
Proof.
  by destruct (launch_process_trace w cmd logfile name env launch_time)
    as (rest & -> & _).
Qed.

(** The six launchers are six different steps: on a configuration with an
    application path each one begins with an event of its own. *)
Lemma launchers_distinct (w : World) : NoDup (launchers_of w).
Proof.
  set (a := Sample.parsed "ip" "html" (Some Sample.ref_app) false false).
  apply (NoDup_fmap_1 (fun f : Namespace -> M proc => head (trace (f a)))).
  assert (Hhtml : head (trace (launch_html w a)) = Some (stable_message "HTML GUI" 2)).
  { destruct (launch_html_trace w a) as (rest & -> & _).
    by destruct (launch_process_trace w (gse_args w a) None (Some "HTML GUI")
                   (Some (flask_env w a)) (Some 2%Z)) as (rest' & -> & _). }
  unfold launchers_of. rewrite !fmap_cons, Hhtml.
  unfold launch_tts, launch_comm, launch_app, poll_telem, launch_openmct.
  simpl app. rewrite !launch_process_head. simpl.
  destruct (fprime_openmct w); simpl;
    repeat (apply NoDup_cons_2;
            [rewrite ?elem_of_cons, elem_of_nil; intros Hin;
             repeat (destruct Hin as [Hin|Hin]; try discriminate Hin); done |]);
    apply NoDup_nil_2.
Qed.

Lemma comprehension_terminations (a : Namespace) (fs : list (Namespace -> M proc)) :
  (forall f, In f fs -> terminations (trace (f a)) = []) ->
  terminations (trace (comprehension a fs)) = [].
Proof.
  induction fs as [|f fs IH]; intros Hfs; [done|].
  simpl. pose proof (Hfs f (or_introl eq_refl)) as Hf.
  specialize (IH (fun g Hg => Hfs g (or_intror Hg))).
  destruct (f a) as [tf [p|e]]; [|by msimpl].
  destruct (comprehension a fs) as [tc [ps|e]]; msimpl;
    rewrite ?app_nil_r, terminations_app, Hf, IH; done.
Qed.

Lemma main_launchers_terminations (w : World) (a : Namespace) :
  terminations (trace (main_launchers w a)) = [].
Proof.
  unfold main_launchers. bridge_cases w a; by core_cases a.
Qed.

Lemma supervise_terminations (w : World) (a : Namespace) fs :
  terminations (trace (comprehension a fs)) = [] ->
  terminations (trace (supervise w a fs)) = [].
Proof.
  intros Hc. destruct (comprehension a fs) as [t [procs|e]] eqn:Hcomp.
  - destruct (last procs) as [p|] eqn:Hl.
    + rewrite (supervise_launch_Ok w a fs procs p) by (by rewrite ?Hcomp).
      rewrite Hcomp. simpl in *.
      destruct (wait w p) as [z|[]]; simpl;
        rewrite !terminations_app, Hc; done.
    + unfold supervise. rewrite Hcomp. msimpl. rewrite Hl. simpl.
      rewrite !terminations_app, Hc. done.
  - rewrite (supervise_launch_Raise w a fs e) by (by rewrite Hcomp).
    rewrite Hcomp. simpl in *.
    destruct e; simpl; rewrite terminations_app, Hc; done.
Qed.

(** The supervisor never asks a process to terminate: "Processes are killed
    atexit". *)
Lemma main_terminations (w : World) (a : Namespace) :
  terminations (trace (main w a)) = [].
Proof.
  destruct (outcome (main_launchers w a)) as [fs|e] eqn:Hfs.
  - rewrite (main_supervise w a fs Hfs). simpl.
    rewrite terminations_app, main_launchers_terminations. simpl.
    apply (supervise_terminations w a fs), comprehension_terminations.
    intros f Hf. apply (launcher_terminations w).
    apply (plan_spec_launchers w a).
    by rewrite <- (main_launchers_outcome w a fs Hfs).
  - unfold main. rewrite (bind_Raise _ _ e Hfs). simpl.
    apply main_launchers_terminations.
Qed.

(** C4, as amended.  When a step of the launch plan raises an error, the
    steps after it are not attempted: the run consists of the planning, the
    steps before the failing one, the failing step and the shutdown message,
    and [main] returns 1.  The supervisor itself sends no terminate request
    to any handle; the processes already launched are left to the exit-time
    handlers. *)
Theorem launch_failure_aborts (w : World) (a : Namespace)
    (pre post : list (Namespace -> M proc)) (f : Namespace -> M proc)
    (procs : list proc) (e : exn) :
  outcome (main_launchers w a) = Ok (pre ++ f :: post) ->
  outcome (comprehension a pre) = Ok procs ->
  outcome (f a) = Raise e -> is_Exception e = true ->
  trace (main w a)
  = trace (main_launchers w a) ++ trace (comprehension a pre) ++ trace (f a)
    ++ [shutdown_message e]
  /\ outcome (main w a) = Ok 1%Z
  /\ forall p, terminate_requests p (trace (main w a)) = 0.
Proof.
  intros Hfs Hpre Hf He. split; [|split].
  - rewrite (main_supervise w a _ Hfs). simpl.
    rewrite (supervise_launch_Raise w a _ e)
      by (by rewrite (comprehension_app_Raise a pre post f procs e)).
    rewrite (comprehension_app_Raise a pre post f procs e) by done.
    destruct e; try discriminate; simpl; by rewrite <- !app_assoc.
  - rewrite (main_supervise w a _ Hfs). simpl.
    rewrite (supervise_launch_Raise w a _ e)
      by (by rewrite (comprehension_app_Raise a pre post f procs e)).
    by destruct e.
  - intros p. unfold terminate_requests. by rewrite main_terminations.
Qed.

Lemma launch_failure_aborts_witness :
  let w := Sample.world Sample.flask_unstable false (Ok 0%Z) in
  let a := Sample.parsed "none" "html" None false false in
  trace (main w a)
  = trace (main_launchers w a) ++ trace (comprehension a [launch_tts w])
    ++ trace (launch_html w a)
    ++ [shutdown_message (AppWrapperException "Failed to run HTML GUI")]
  /\ outcome (main w a) = Ok 1%Z
  /\ forall p, terminate_requests p (trace (main w a)) = 0.
Proof.
  intros w a.
  apply (launch_failure_aborts w a [launch_tts w] [] (launch_html w) [8]
           (AppWrapperException "Failed to run HTML GUI")); reflexivity.
Defined.

(** The relay is up (handle 8) and the GUI exits within its window: [main]
    returns 1 and handle 8 has received no terminate request. *)
Lemma terminated_exactly_once_counterexample : ~ terminated_exactly_once.
Proof.
  intros H.
  set (w := Sample.world Sample.flask_unstable false (Ok 0%Z)).
  set (a := Sample.parsed "none" "html" None false false).
  specialize (H w a [launch_tts w] [] (launch_html w) [8]
                (AppWrapperException "Failed to run HTML GUI")
                eq_refl eq_refl eq_refl eq_refl 8 (or_introl eq_refl)).
  vm_compute in H. discriminate H.
Qed.

(** ** The "--log-directly" flag *)

Lemma launch_process_commands w cmd logfile name env launch_time :
  commands (trace (launch_process w cmd logfile name env launch_time)) = [cmd].
Proof.
  unfold commands. rewrite launch_process_flat_map; [done|]. by intros [].
Qed.

Lemma launch_process_environments w cmd logfile name env launch_time :
  environments (trace (launch_process w cmd logfile name env launch_time)) = [env].
Proof.
  unfold environments. rewrite launch_process_flat_map; [done|]. by intros [].
Qed.

Lemma launch_html_commands (w : World) (a : Namespace) :
  commands (trace (launch_html w a)) = [gse_args w a].
Proof.
  destruct (launch_html_trace w a) as (rest & -> & Hrest).
  unfold commands. rewrite flat_map_app.
  fold (commands (trace (launch_process w (gse_args w a) None (Some "HTML GUI")
                           (Some (flask_env w a)) (Some 2%Z)))).
  rewrite launch_process_commands. by destruct Hrest as [->|[url ->]].
Qed.

Lemma launch_html_environments (w : World) (a : Namespace) :
  environments (trace (launch_html w a)) = [Some (flask_env w a)].
Proof.
  destruct (launch_html_trace w a) as (rest & -> & Hrest).
  unfold environments. rewrite flat_map_app.
  fold (environments (trace (launch_process w (gse_args w a) None (Some "HTML GUI")
                               (Some (flask_env w a)) (Some 2%Z)))).
  rewrite launch_process_environments. by destruct Hrest as [->|[url ->]].
Qed.

Lemma mem_In (x : string) (l : list string) : mem x l = true <-> In x l.
Proof.
  unfold mem. rewrite existsb_exists. split.
  - intros (y & Hy & Heq). apply String.eqb_eq in Heq. by subst.
  - intros Hx. exists x. split; [done|]. apply String.eqb_refl.
Qed.

Lemma append_if_absent (l : list string) :
  flag_ensured l
    (if negb (mem "--log-directly" l) then l ++ ["--log-directly"] else l).
Proof.
  unfold flag_ensured.
  destruct (mem "--log-directly" l) eqn:Hm; simpl.
  - apply mem_In in Hm. repeat split; try done.
    apply (count_occ_In string_dec) in Hm. lia.
  - assert (Hn : ~ In "--log-directly" l).
    { intros Hin. apply mem_In in Hin. congruence. }
    repeat split; try done.
    + apply in_app_iff. right. by left.
    + rewrite count_occ_app.
      apply (count_occ_not_In string_dec) in Hn. rewrite Hn. reflexivity.
Qed.

(** The web GUI is launched as [python -u -m flask run --host ... --port ...]:
    the reproduced arguments, flag included, are not on its command line. *)
Lemma flag_on_command_lines_counterexample : ~ flag_on_command_lines.
Proof.
  intros H.
  set (w := Sample.world Sample.all_stable false (Ok 0%Z)).
  set (a := Sample.parsed "none" "html" None false false).
  destruct (H w a) as [_ Hhtml].
  specialize (Hhtml ["/usr/bin/python3"; "-u"; "-m"; "flask"; "run";
                     "--host"; "127.0.0.1"; "--port"; "5000"]).
  rewrite launch_html_commands in Hhtml.
  specialize (Hhtml (or_introl eq_refl)).
  apply mem_In in Hhtml. vm_compute in Hhtml. discriminate Hhtml.
Qed.

(** C6, as amended.  The communication adapter is launched with its
    reproduced arguments on the command line, "--log-directly" appended when
    the reproduced list lacks it and the list unchanged when it has it, so
    the command line contains the flag.  For the web GUI the same completion
    is applied to the reproduced pipeline arguments, but they are handed over
    in STANDARD_PIPELINE_ARGUMENTS of the child's environment; the command
    line is the flask invocation with host and port. *)
Theorem log_directly_flag (w : World) (a : Namespace) :
  commands (trace (launch_comm w a))
  = [BASE_MODULE_ARGUMENTS w ++ ["fprime_gds.executables.comm"] ++ comm_arguments w a]
  /\ flag_ensured (comm_args w a) (comm_arguments w a)
  /\ (forall cmd, In cmd (commands (trace (launch_comm w a))) ->
                  In "--log-directly" cmd)
  /\ flag_ensured (std_pipeline_args w a) (html_reproduced_arguments w a)
  /\ environments (trace (launch_html w a)) = [Some (flask_env w a)]
  /\ flask_env w a !! "STANDARD_PIPELINE_ARGUMENTS"
     = Some (join "|" (html_reproduced_arguments w a))
  /\ commands (trace (launch_html w a))
     = [BASE_MODULE_ARGUMENTS w
        ++ ["flask"; "run"; "--host"; gui_addr a; "--port"; str_int (gui_port a)]].
Proof.
  pose proof (append_if_absent (comm_args w a)) as Hcomm.
  pose proof (append_if_absent (std_pipeline_args w a)) as Hhtml.
  split; [apply launch_process_commands|].
  split; [exact Hcomm|].
  split.
  { intros cmd Hcmd. unfold launch_comm in Hcmd.
    rewrite launch_process_commands in Hcmd. destruct Hcmd as [<-|[]].
    unfold comm_cmd. rewrite !in_app_iff. do 2 right. apply Hcomm. }
  split; [exact Hhtml|].
  split; [apply launch_html_environments|].
  split; [|apply launch_html_commands].
  unfold flask_env. rewrite lookup_insert_ne by done. apply lookup_insert_eq.
Qed.

Lemma log_directly_flag_witness :
  let w := Sample.world Sample.all_stable false (Ok 0%Z) in
  let a := Sample.parsed "ip" "html" None false false in
  In "--log-directly"
     ["/usr/bin/python3"; "-u"; "-m"; "fprime_gds.executables.comm";
      "--comm-adapter"; "ip"; "--log-directly"]
  /\ comm_arguments w a = comm_args w a ++ ["--log-directly"].
Proof.
  intros w a.
  destruct (log_directly_flag w a) as (_ & (_ & Habsent & _) & Hin & _).
  split.
  - apply Hin. left. reflexivity.
  - apply Habsent. intros Hflag. apply mem_In in Hflag. discriminate Hflag.
Defined.

(** ** The browser *)

Lemma launch_process_browser_urls w cmd logfile name env launch_time :
  browser_urls (trace (launch_process w cmd logfile name env launch_time)) = [].
Proof.
  unfold browser_urls. rewrite launch_process_flat_map; [done|]. by intros [].
Qed.

Lemma launch_html_Ok (w : World) (a : Namespace) (p : proc) :
  run_wrapped_application w (gse_args w a) None (Some (flask_env w a)) 2 = Ok p ->
  outcome (launch_html w a) = Ok p
  /\ browser_urls (trace (launch_html w a))
     = if String.eqb (gui a) "html"
       then ["http://" +:+ gui_addr a +:+ ":" +:+ str_int (gui_port a) +:+ "/"]
       else [].
Proof.
  intros Hr. unfold launch_html.
  rewrite (launch_process_Ok w _ _ _ _ (Some 2%Z) p Hr).
  by destruct (String.eqb (gui a) "html").
Qed.

Lemma launch_html_Raise (w : World) (a : Namespace) (e : exn) :
  run_wrapped_application w (gse_args w a) None (Some (flask_env w a)) 2 = Raise e ->
  (exists e', outcome (launch_html w a) = Raise e')
  /\ browser_urls (trace (launch_html w a)) = [].
Proof.
  intros Hr. unfold launch_html.
  pose proof (launch_process_browser_urls w (gse_args w a) None (Some "HTML GUI")
                (Some (flask_env w a)) (Some 2%Z)) as Hb.
  destruct (is_AppWrapperException e) eqn:He.
  - destruct e; try discriminate.
    rewrite (launch_process_failed w _ _ _ _ (Some 2%Z) msg Hr) in Hb |- *.
    simpl. msimpl. split; [by eexists | done].
  - rewrite (launch_process_other w _ _ _ _ (Some 2%Z) e Hr He).
    msimpl. split; [by eexists | done].
Qed.

(** With [--gui html] the browser is opened. *)
Lemma browser_iff_mode_browser_counterexample : ~ browser_iff_mode_browser.
Proof.
  intros H.
  set (w := Sample.world Sample.all_stable false (Ok 0%Z)).
  set (a := Sample.parsed "none" "html" None false false).
  destruct (H w a 9 eq_refl) as [Hopened _].
  assert (Hgui : gui a = "browser"); [|discriminate Hgui].
  apply Hopened. rewrite (proj2 (launch_html_Ok w a 9 eq_refl)). discriminate.
Qed.

(** C8, as amended.  After the web GUI process launches successfully, the
    default browser is opened, at [http://<gui_addr>:<gui_port>/], if and
    only if the configured GUI mode is "html"; when the GUI launch fails the
    launcher raises and the browser is not opened. *)
Theorem browser_opened (w : World) (a : Namespace) :
  (forall p,
      run_wrapped_application w (gse_args w a) None (Some (flask_env w a)) 2 = Ok p ->
      outcome (launch_html w a) = Ok p
      /\ (gui a = "html" ->
          browser_urls (trace (launch_html w a))
          = ["http://" +:+ gui_addr a +:+ ":" +:+ str_int (gui_port a) +:+ "/"])
      /\ (gui a <> "html" -> browser_urls (trace (launch_html w a)) = []))
  /\ (forall e,
      run_wrapped_application w (gse_args w a) None (Some (flask_env w a)) 2 = Raise e ->
      (exists e', outcome (launch_html w a) = Raise e')
      /\ browser_urls (trace (launch_html w a)) = []).
Proof.
  split.
  - intros p Hr. destruct (launch_html_Ok w a p Hr) as [Ho Hb].
    split; [done|]. rewrite Hb.
    destruct (String.eqb_spec (gui a) "html"); split; done.
  - apply launch_html_Raise.
Qed.

Lemma browser_opened_witness :
  let w := Sample.world Sample.all_stable false (Ok 0%Z) in
  browser_urls (trace (launch_html w (Sample.parsed "none" "html" None false false)))
  = ["http://127.0.0.1:5000/"]
  /\ browser_urls
       (trace (launch_html w (Sample.parsed "none" "browser" None false false))) = []
  /\ browser_urls
       (trace (launch_html (Sample.world Sample.flask_unstable false (Ok 0%Z))
                 (Sample.parsed "none" "html" None false false))) = [].
Proof.
  intros w. split; [|split].
  - destruct (browser_opened w (Sample.parsed "none" "html" None false false))
      as [H _].
    destruct (H 9 eq_refl) as (_ & Hhtml & _). apply Hhtml. reflexivity.
  - destruct (browser_opened w (Sample.parsed "none" "browser" None false false))
      as [H _].
    destruct (H 9 eq_refl) as (_ & _ & Hother). apply Hother. discriminate.
  - destruct (browser_opened (Sample.world Sample.flask_unstable false (Ok 0%Z))
                (Sample.parsed "none" "html" None false false)) as [_ H].
    destruct (H (AppWrapperException "Failed to run application") eq_refl)
      as [_ Hb].
    exact Hb.
Defined.

(** ** The environment of the web GUI *)

Section SplitJoin.

Variable c : ascii.

Local Abbreviation sep := (String c EmptyString).

Lemma count_char_append (s t : string) :
  count_char c (s +:+ t) = count_char c s + count_char c t.
Proof. induction s as [|x s IH]; simpl; [done|]. rewrite IH. lia. Qed.

Lemma length_split (s : string) : length (split c s) = S (count_char c s).
Proof.
  induction s as [|x s IH]; simpl; [done|].
  destruct (Ascii.eqb x c); simpl; [by rewrite IH|].
  destruct (split c s) as [|h t]; [discriminate IH | exact IH].
Qed.

Lemma split_no_sep (s : string) : count_char c s = 0 -> split c s = [s].
Proof.
  induction s as [|x s IH]; simpl; [done|].
  destruct (Ascii.eqb x c); [discriminate|].
  intros Hs. by rewrite (IH Hs).
Qed.

Lemma split_append (s t : string) :
  count_char c s = 0 -> split c (s +:+ sep +:+ t) = s :: split c t.
Proof.
  induction s as [|x s IH]; simpl.
  - intros _. by rewrite Ascii.eqb_refl.
  - destruct (Ascii.eqb x c); [discriminate|].
    intros Hs. by rewrite (IH Hs).
Qed.

(** Joining and splitting again gives the list back, for a list that is not
    empty and whose items are free of the separator. *)
Lemma split_join (l : list string) :
  l <> [] -> Forall (fun s => count_char c s = 0) l ->
  split c (join sep l) = l.
Proof.
  induction l as [|x l IH]; [done|]. intros _ Hl.
  apply Forall_cons in Hl as [Hx Hl].
  destruct l as [|y l]; [by apply split_no_sep|].
  change (join sep (x :: y :: l)) with (x +:+ sep +:+ join sep (y :: l)).
  rewrite (split_append _ _ Hx). f_equal. by apply IH.
Qed.

(** The joined string has one separator between two items, and those of the
    items: nothing is escaped. *)
Lemma count_char_join (l : list string) :
  S (count_char c (join sep l))
  = Nat.max 1 (length l) + list_sum (map (count_char c) l).
Proof.
  induction l as [|x l IH]; [done|].
  destruct l as [|y l]; [simpl; lia|].
  change (join sep (x :: y :: l)) with (x +:+ sep +:+ join sep (y :: l)).
  rewrite !count_char_append. simpl count_char at 2.
  rewrite Ascii.eqb_refl. simpl in *. lia.
Qed.

Lemma split_join_corrupted (l : list string) :
  Exists (fun s => count_char c s <> 0) l -> split c (join sep l) <> l.
Proof.
  intros Hex Heq. apply (f_equal (@length string)) in Heq.
  rewrite length_split, count_char_join in Heq.
  assert (0 < list_sum (map (count_char c) l)); [|lia].
  clear Heq. induction Hex as [x l Hx|x l _ IH]; simpl; lia.
Qed.

End SplitJoin.

Lemma has_char_false (c : ascii) (s : string) :
  has_char c s = false <-> count_char c s = 0.
Proof.
  unfold has_char. destruct (Nat.eqb_spec (count_char c s) 0); simpl;
    split; congruence.
Qed.

Lemma has_char_true (c : ascii) (s : string) :
  has_char c s = true <-> count_char c s <> 0.
Proof.
  unfold has_char. destruct (Nat.eqb_spec (count_char c s) 0); simpl;
    split; congruence.
Qed.

(** ["".split("|")] is [[""]]: the empty list is not recovered.  The list
    [launch_html] joins is never empty, it has the flag. *)
Example split_join_empty : split "|" (join "|" []) = [""].
Proof. reflexivity. Qed.

(** C9. The environment of the web GUI process is the supervisor's
    environment with three entries set: FLASK_APP (the web application
    module), SERVE_LOGS, and STANDARD_PIPELINE_ARGUMENTS, the reproduced
    pipeline arguments joined with "|"; every other variable is as in the
    supervisor's environment.  When no reproduced argument contains "|",
    splitting the string on "|" gives the joined list back; nothing is
    escaped, so when an argument contains "|" the split does not give the
    list back. *)
Theorem gui_environment (w : World) (a : Namespace) :
  environments (trace (launch_html w a)) = [Some (flask_env w a)]
  /\ flask_env w a !! "FLASK_APP" = Some "fprime_gds.flask.app"
  /\ flask_env w a !! "SERVE_LOGS" = Some "YES"
  /\ flask_env w a !! "STANDARD_PIPELINE_ARGUMENTS"
     = Some (join "|" (html_reproduced_arguments w a))
  /\ (forall k : string,
        k <> "FLASK_APP" -> k <> "SERVE_LOGS" -> k <> "STANDARD_PIPELINE_ARGUMENTS" ->
        flask_env w a !! k = os_environ w !! k)
  /\ (Forall (fun s => has_char "|" s = false) (std_pipeline_args w a) ->
      split "|" (join "|" (html_reproduced_arguments w a))
      = html_reproduced_arguments w a)
  /\ (Exists (fun s => has_char "|" s = true) (std_pipeline_args w a) ->
      split "|" (join "|" (html_reproduced_arguments w a))
      <> html_reproduced_arguments w a).
Proof.
  split; [apply launch_html_environments|].
  unfold flask_env.
  split; [by rewrite !lookup_insert_ne by done; apply lookup_insert_eq|].
  split; [apply lookup_insert_eq|].
  split; [by rewrite lookup_insert_ne by done; apply lookup_insert_eq|].
  split; [intros k H1 H2 H3; by rewrite !lookup_insert_ne by done|].
  destruct (append_if_absent (std_pipeline_args w a)) as (Hin & _).
  fold (html_reproduced_arguments w a) in Hin.
  split.
  - intros Hfree. apply split_join.
    + intros Hnil. by rewrite Hnil in Hin.
    + unfold html_reproduced_arguments.
      assert (Hargs : Forall (fun s => count_char "|" s = 0) (std_pipeline_args w a)).
      { eapply Forall_impl; [exact Hfree|]. intros s. apply has_char_false. }
      destruct (negb (mem "--log-directly" (std_pipeline_args w a))); [|done].
      apply Forall_app. split; [done|]. by constructor.
  - intros Hbar. apply split_join_corrupted.
    unfold html_reproduced_arguments.
    assert (Hargs : Exists (fun s => count_char "|" s <> 0) (std_pipeline_args w a)).
    { eapply Exists_impl; [exact Hbar|]. intros s. apply has_char_true. }
    destruct (negb (mem "--log-directly" (std_pipeline_args w a))); [|done].
    apply Exists_app. by left.
Qed.

Lemma gui_environment_witness :
  let w := Sample.world Sample.all_stable false (Ok 0%Z) in
  let a := Sample.parsed "none" "html" None false false in
  flask_env w a !! "HOME" = Some "/root"
  /\ split "|" "--dictionary|/fsw/Top/RefTopologyAppDictionary.xml|--log-directly"
     = ["--dictionary"; "/fsw/Top/RefTopologyAppDictionary.xml"; "--log-directly"].
Proof.
  intros w a.
  destruct (gui_environment w a) as (_ & _ & _ & _ & Hother & Hsplit & _).
  split.
  - rewrite Hother by discriminate. reflexivity.
  - apply Hsplit. repeat constructor.
Defined.

(** * Further properties of the launchers *)

Lemma filter_flat_map (keep : event -> bool) (t : list event) :
  List.filter keep t = flat_map (fun ev => if keep ev then [ev] else []) t.
Proof.
  induction t as [|ev t IH]; simpl; [done|].
  rewrite IH. by destruct (keep ev).
Qed.

Lemma flat_map_nil_Forall {X} (g : event -> list X) (keep : event -> bool)
    (t : list event) :
  (forall ev, keep ev = true -> g ev = []) ->
  Forall (fun ev => keep ev = true) t -> flat_map g t = [].
Proof.
  intros Hg Ht. induction Ht as [|ev t Hev _ IH]; simpl; [done|].
  by rewrite (Hg ev Hev), IH.
Qed.

Lemma launch_process_started w cmd logfile name env launch_time :
  started (trace (launch_process w cmd logfile name env launch_time))
  = [EvRun cmd logfile env (default 5%Z launch_time)].
Proof.
  unfold started. rewrite filter_flat_map, launch_process_flat_map; [done|].
  by intros [].
Qed.

(** X1.  One call of [launch_process] starts one process, whatever becomes of it:
    a launch that fails is not tried again. *)
Theorem one_process_per_launch (w : World) (cmd : list string)
    (logfile name : option string) (env : option (gmap string string))
    (launch_time : option Z) :
  started (trace (launch_process w cmd logfile name env launch_time))
  = [EvRun cmd logfile env (default 5%Z launch_time)]
  /\ length (commands (trace (launch_process w cmd logfile name env launch_time))) = 1.
Proof.
  split; [apply launch_process_started|].
  by rewrite launch_process_commands.
Qed.

(** X2.  Only [AppWrapperException] is handled: a handle, or any other exception
    of [run_wrapped_application], comes out of [launch_process] as it is,
    with no error message and no log replay. *)
Theorem launch_process_transparent (w : World) (cmd : list string)
    (logfile name : option string) (env : option (gmap string string))
    (launch_time : option Z) (r : result proc) :
  run_wrapped_application w cmd logfile env (default 5%Z launch_time) = r ->
  (forall msg, r <> Raise (AppWrapperException msg)) ->
  launch_process w cmd logfile name env launch_time
  = ([stable_message (default (str_cmd w cmd) name) (default 5%Z launch_time);
      EvRun cmd logfile env (default 5%Z launch_time)], r).
Proof.
  intros Hr Hnot. destruct r as [p|e].
  - by apply launch_process_Ok.
  - apply launch_process_other; [done|].
    destruct e; try reflexivity. by destruct (Hnot msg).
Qed.

Lemma launch_process_transparent_witness :
  let w := Sample.world Sample.all_stable false (Ok 0%Z) in
  launch_process w ["flask"; "run"] None (Some "HTML GUI") None (Some 2%Z)
  = ([stable_message "HTML GUI" 2; EvRun ["flask"; "run"] None None 2], Ok 2).
Proof.
  intros w.
  apply (launch_process_transparent w ["flask"; "run"] None (Some "HTML GUI")
           None (Some 2%Z) (Ok 2)).
  - reflexivity.
  - intros msg. discriminate.
Defined.

(** X3.  [except Exception] does not catch [KeyboardInterrupt]: an interrupt while
    the log of a failed launch is replayed comes out of [launch_process] in
    place of the launch failure. *)
Theorem log_replay_interrupted (w : World) (cmd : list string) (path : string)
    (name : option string) (env : option (gmap string string))
    (launch_time : option Z) (msg : string) :
  run_wrapped_application w cmd (Some path) env (default 5%Z launch_time)
  = Raise (AppWrapperException msg) ->
  snd (read_log w path) = Some KeyboardInterrupt ->
  outcome (launch_process w cmd (Some path) name env launch_time)
  = Raise KeyboardInterrupt.
Proof.
  intros Hr Hlog. rewrite (launch_process_failed w _ _ _ _ _ msg Hr). simpl.
  destruct (read_log w path) as [lines err]. simpl in *. by subst err.
Qed.

Lemma log_replay_interrupted_witness :
  let w := {| sys_executable := "python3"; os_environ := ∅;
              fprime_openmct := false; str_cmd := join " ";
              std_pipeline_args := fun _ => []; comm_args := fun _ => [];
              poller_args := fun _ => [];
              run_wrapped_application := fun _ _ _ _ =>
                Raise (AppWrapperException "exited early");
              read_log := fun _ => (["booting"], Some KeyboardInterrupt);
              jsonifier := fun _ => Ok tt; write_json := fun _ => Ok tt;
              launch_openmct_server := Ok 1; wait := fun _ => Ok 0%Z |} in
  outcome (launch_process w ["tcpserver"] (Some "/tmp/tts.log") None None None)
  = Raise KeyboardInterrupt.
Proof.
  intros w.
  apply (log_replay_interrupted w ["tcpserver"] "/tmp/tts.log" None None None
           "exited early"); reflexivity.
Defined.

(** X4.  The log that is replayed is the log file the process was started with,
    and a log is reopened only after an [AppWrapperException]. *)
Theorem log_replay_same_file (w : World) (cmd : list string)
    (logfile name : option string) (env : option (gmap string string))
    (launch_time : option Z) :
  reopened (trace (launch_process w cmd logfile name env launch_time))
  = match run_wrapped_application w cmd logfile env (default 5%Z launch_time),
          logfile with
    | Raise (AppWrapperException _), Some path => [path]
    | _, _ => []
    end.
Proof.
  destruct (run_wrapped_application w cmd logfile env (default 5%Z launch_time))
    as [p|e] eqn:Hr.
  - by rewrite (launch_process_Ok w _ _ _ _ _ p Hr).
  - destruct (is_AppWrapperException e) eqn:He.
    + destruct e; try discriminate.
      rewrite (launch_process_failed w _ _ _ _ _ msg Hr). simpl.
      unfold replay_log. destruct logfile as [path|]; [|done].
      destruct (read_log w path) as [lines err]. simpl. f_equal.
      induction lines; simpl; done.
    + rewrite (launch_process_other w _ _ _ _ _ e Hr He).
      by destruct e.
Qed.

Lemma launch_process_events w cmd logfile name env launch_time :
  Forall (fun ev => launch_event ev = true)
    (trace (launch_process w cmd logfile name env launch_time)).
Proof.
  destruct (launch_process_trace w cmd logfile name env launch_time)
    as (rest & -> & Hrest).
  do 2 (constructor; [done|]).
  eapply Forall_impl; [exact Hrest|]. by intros [].
Qed.

Lemma launcher_events (w : World) (a : Namespace) f :
  In f (launchers_of w) -> Forall (fun ev => launch_event ev = true) (trace (f a)).
Proof.
  intros [<-|[<-|[<-|[<-|[<-|[<-|[]]]]]]].
  - apply launch_process_events.
  - apply launch_process_events.
  - unfold launch_app. destruct (app a); [|by constructor].
    apply launch_process_events.
  - destruct (launch_html_trace w a) as (rest & -> & Hrest).
    apply Forall_app. split; [apply launch_process_events|].
    destruct Hrest as [->|[url ->]]; by repeat constructor.
  - unfold launch_openmct. destruct (fprime_openmct w); by repeat constructor.
  - apply launch_process_events.
Qed.

Lemma launch_process_logfiles w cmd logfile name env launch_time :
  logfiles (trace (launch_process w cmd logfile name env launch_time)) = [logfile].
Proof.
  unfold logfiles. rewrite launch_process_flat_map; [done|]. by intros [].
Qed.

Lemma launch_process_no_log w cmd name env launch_time :
  reopened (trace (launch_process w cmd None name env launch_time)) = [].
Proof.
  destruct (run_wrapped_application w cmd None env (default 5%Z launch_time))
    as [p|e] eqn:Hr.
  - by rewrite (launch_process_Ok w _ _ _ _ _ p Hr).
  - destruct (is_AppWrapperException e) eqn:He.
    + destruct e; try discriminate.
      by rewrite (launch_process_failed w _ _ _ _ _ msg Hr).
    + by rewrite (launch_process_other w _ _ _ _ _ e Hr He).
Qed.

(** X5.  Only the messaging relay and the application are started with a log
    file, [ThreadedTCP.log] and [<name>.log] in the log directory; the
    communication adapter, the web GUI and the telemetry poller are started
    without one, and no log is reopened when one of them fails.  Only the web
    GUI is given an environment; the others inherit the supervisor's. *)
Theorem launch_parameters (w : World) (a : Namespace) :
  logfiles (trace (launch_tts w a)) = [Some (os_path_join (logs a) "ThreadedTCP.log")]
  /\ (forall app_path, app a = Some app_path ->
        logfiles (trace (launch_app w a))
        = [Some (os_path_join (logs a) (path_name app_path +:+ ".log"))]
        /\ environments (trace (launch_app w a)) = [None])
  /\ (forall f, In f [launch_comm w; launch_html w; poll_telem w] ->
        logfiles (trace (f a)) = [None] /\ reopened (trace (f a)) = [])
  /\ (forall f, In f [launch_tts w; launch_comm w; poll_telem w] ->
        environments (trace (f a)) = [None]).
Proof.
  split; [apply launch_process_logfiles|].
  split.
  { intros app_path Hp. unfold launch_app. rewrite Hp.
    split; [apply launch_process_logfiles | apply launch_process_environments]. }
  split.
  - intros f [<-|[<-|[<-|[]]]].
    + split; [apply launch_process_logfiles | apply launch_process_no_log].
    + destruct (launch_html_trace w a) as (rest & -> & Hrest).
      unfold logfiles, reopened. rewrite !flat_map_app.
      fold (logfiles (trace (launch_process w (gse_args w a) None (Some "HTML GUI")
                                (Some (flask_env w a)) (Some 2%Z)))).
      fold (reopened (trace (launch_process w (gse_args w a) None (Some "HTML GUI")
                                (Some (flask_env w a)) (Some 2%Z)))).
      rewrite launch_process_logfiles, launch_process_no_log.
      by destruct Hrest as [->|[url ->]].
    + split; [apply launch_process_logfiles | apply launch_process_no_log].
  - intros f [<-|[<-|[<-|[]]]]; apply launch_process_environments.
Qed.

Lemma launch_parameters_witness :
  let w := Sample.world Sample.flask_unstable false (Ok 0%Z) in
  let a := Sample.parsed "ip" "html" (Some Sample.ref_app) false false in
  logfiles (trace (launch_app w a)) = [Some "/tmp/logs/Ref.log"]
  /\ reopened (trace (launch_html w a)) = [].
Proof.
  intros w a. destruct (launch_parameters w a) as (_ & Happ & Hnolog & _).
  split.
  - apply (Happ Sample.ref_app). reflexivity.
  - apply (Hnolog (launch_html w)). right. left. reflexivity.
Defined.

(** * Further properties of the supervisor loop *)

Lemma trace_bind_ret {A B} (m : M A) (g : A -> B) :
  trace (m ≫= fun x => mret (g x)) = trace m
  /\ outcome (m ≫= fun x => mret (g x))
     = match outcome m with Ok x => Ok (g x) | Raise e => Raise e end.
Proof.
  destruct m as [t [x|e]]; msimpl; [|done]. by rewrite app_nil_r.
Qed.

Lemma comprehension_cons {A B} (x : A) (f : A -> M B) (fs : list (A -> M B)) :
  comprehension x (f :: fs)
  = match outcome (f x) with
    | Ok b =>
        (trace (f x) ++ trace (comprehension x fs),
         match outcome (comprehension x fs) with
         | Ok bs => Ok (b :: bs)
         | Raise e => Raise e
         end)
    | Raise e => (trace (f x), Raise e)
    end.
Proof.
  simpl. destruct (f x) as [tf [b|e]]; [|done].
  destruct (comprehension x fs) as [t [bs|e]]; msimpl; [|done].
  by rewrite app_nil_r.
Qed.

Lemma comprehension_trace {A B} (x : A) (fs : list (A -> M B)) :
  trace (comprehension x fs)
  = concat (map (fun f => trace (f x)) (take (steps_run x fs) fs)).
Proof.
  induction fs as [|f fs IH]; [done|].
  rewrite comprehension_cons. simpl steps_run.
  destruct (outcome (f x)) as [b|e]; simpl.
  - by rewrite IH.
  - rewrite ?take_0. simpl. by rewrite ?app_nil_r.
Qed.

Lemma steps_run_before {A B} (x : A) (fs : list (A -> M B)) (i : nat) f :
  fs !! i = Some f -> S i < steps_run x fs -> exists b, outcome (f x) = Ok b.
Proof.
  revert i. induction fs as [|g fs IH]; intros i Hi Hlt; [done|].
  simpl in Hlt. destruct (outcome (g x)) as [b|e] eqn:Hg; [|lia].
  destruct i as [|i]; simpl in Hi.
  - injection Hi as <-. by exists b.
  - apply (IH i Hi). lia.
Qed.

Lemma steps_run_Raise {A B} (x : A) (fs : list (A -> M B)) (e : exn) :
  outcome (comprehension x fs) = Raise e ->
  exists f, fs !! (steps_run x fs - 1) = Some f /\ outcome (f x) = Raise e.
Proof.
  induction fs as [|g fs IH]; [done|].
  rewrite comprehension_cons. simpl steps_run.
  destruct (outcome (g x)) as [b|e'] eqn:Hg; simpl.
  - destruct (outcome (comprehension x fs)) as [bs|e''] eqn:Hc; [done|].
    intros [= ->]. destruct (IH eq_refl) as (f & Hf & He).
    exists f. split; [|done].
    destruct (steps_run x fs) as [|n] eqn:Hn.
    + destruct fs as [|h fs']; [discriminate Hc|].
      simpl in Hn. by destruct (outcome (h x)).
    + simpl in *. by rewrite Nat.sub_0_r in *.
  - intros [= ->]. by exists g.
Qed.

(** X6.  The launchers run in the order of the plan, one after the other: the
    events of the comprehension are the events of the launchers it called,
    in plan order; every launcher before the last one called returned a
    handle; and when the comprehension raises, the last launcher called is
    the one that raised. *)
Theorem launch_order {A B} (x : A) (fs : list (A -> M B)) :
  trace (comprehension x fs)
  = concat (map (fun f => trace (f x)) (take (steps_run x fs) fs))
  /\ steps_run x fs <= length fs
  /\ (forall i f, fs !! i = Some f -> S i < steps_run x fs ->
        exists b, outcome (f x) = Ok b)
  /\ (forall e, outcome (comprehension x fs) = Raise e ->
        exists f, fs !! (steps_run x fs - 1) = Some f /\ outcome (f x) = Raise e).
Proof.
  split; [apply comprehension_trace|].
  split; [|split; [apply steps_run_before | apply steps_run_Raise]].
  induction fs as [|f fs IH]; simpl; [lia|].
  destruct (outcome (f x)); lia.
Qed.

Lemma launch_order_witness :
  let w := Sample.world Sample.flask_unstable false (Ok 0%Z) in
  let a := Sample.parsed "none" "html" None false false in
  (exists p, outcome (launch_tts w a) = Ok p)
  /\ exists f, [launch_tts w; launch_html w; launch_comm w] !! 1 = Some f
               /\ outcome (f a)
                  = Raise (AppWrapperException "Failed to run HTML GUI").
Proof.
  intros w a.
  destruct (launch_order a [launch_tts w; launch_html w; launch_comm w])
    as (_ & _ & Hbefore & Hlast).
  split.
  - apply (Hbefore 0 (launch_tts w)); [reflexivity | vm_compute; lia].
  - apply (Hlast (AppWrapperException "Failed to run HTML GUI")). reflexivity.
Defined.

(** X7.  The comprehension returns a list exactly when every launcher returns,
    and then the list holds their handles in plan order. *)
Theorem comprehension_handles {A B} (x : A) (fs : list (A -> M B)) (bs : list B) :
  outcome (comprehension x fs) = Ok bs
  <-> Forall2 (fun f b => outcome (f x) = Ok b) fs bs.
Proof.
  revert bs. induction fs as [|f fs IH]; intros bs.
  - split.
    + intros [= <-]. constructor.
    + intros Hbs. by inversion Hbs.
  - rewrite comprehension_cons. split.
    + destruct (outcome (f x)) as [b|e] eqn:Hf; [|done]. simpl.
      destruct (outcome (comprehension x fs)) as [bs'|e] eqn:Hc; [|done].
      intros [= <-]. constructor; [done|]. by apply IH.
    + intros Hbs. inversion Hbs as [|f' b fs' bs' Hf Hrest]; subst.
      rewrite Hf. simpl. apply IH in Hrest. by rewrite Hrest.
Qed.

Lemma comprehension_handles_witness :
  let w := Sample.world Sample.all_stable false (Ok 0%Z) in
  let a := Sample.parsed "none" "html" None false false in
  Forall2 (fun f p => outcome (f a) = Ok p) [launch_tts w; launch_html w] [8; 9].
Proof.
  intros w a.
  apply (comprehension_handles a [launch_tts w; launch_html w] [8; 9]).
  reflexivity.
Defined.

Lemma comprehension_Forall {A B} (keep : event -> bool) (x : A) (fs : list (A -> M B)) :
  (forall f, In f fs -> Forall (fun ev => keep ev = true) (trace (f x))) ->
  Forall (fun ev => keep ev = true) (trace (comprehension x fs)).
Proof.
  induction fs as [|f fs IH]; intros Hfs; [by constructor|].
  rewrite comprehension_cons.
  pose proof (Hfs f (or_introl eq_refl)) as Hf.
  destruct (outcome (f x)); simpl; [|done].
  apply Forall_app. split; [done|].
  apply IH. intros g Hg. apply Hfs. by right.
Qed.

Lemma plan_events (w : World) (a : Namespace) fs :
  outcome (main_launchers w a) = Ok fs ->
  Forall (fun ev => launch_event ev = true) (trace (comprehension a fs)).
Proof.
  intros Hfs. apply comprehension_Forall. intros f Hf.
  apply (launcher_events w), (plan_spec_launchers w a).
  by rewrite <- (main_launchers_outcome w a fs Hfs).
Qed.

Lemma main_launchers_waits (w : World) (a : Namespace) :
  waits (trace (main_launchers w a)) = []
  /\ started (trace (main_launchers w a)) = []
  /\ commands (trace (main_launchers w a)) = [].
Proof.
  unfold main_launchers. bridge_cases w a; by core_cases a.
Qed.

(** X8.  The supervisor waits for one handle only: after every launcher has
    returned, for the handle of the last one.  When a launcher raises it
    waits for none. *)
Theorem waits_only_terminal (w : World) (a : Namespace) fs :
  outcome (main_launchers w a) = Ok fs ->
  (forall procs, outcome (comprehension a fs) = Ok procs ->
     exists p, last procs = Some p /\ waits (trace (main w a)) = [p])
  /\ (forall e, outcome (comprehension a fs) = Raise e ->
     waits (trace (main w a)) = []).
Proof.
  intros Hfs. rewrite (main_supervise w a fs Hfs). simpl.
  assert (Hlaunch : waits (trace (comprehension a fs)) = []).
  { apply (flat_map_nil_Forall _ launch_event); [by intros []|].
    by apply (plan_events w). }
  destruct (main_launchers_waits w a) as (Hplan & _).
  unfold waits in *. rewrite flat_map_app, Hplan. simpl. split.
  - intros procs Hprocs.
    destruct (last procs) as [p|] eqn:Hl.
    + exists p. split; [done|].
      rewrite (supervise_launch_Ok w a fs procs p Hprocs Hl).
      destruct (wait w p) as [z|[]]; simpl;
        rewrite ?flat_map_app, Hlaunch; reflexivity.
    + apply last_None in Hl. subst procs.
      apply comprehension_length in Hprocs.
      pose proof (plan_spec_html w a) as Hin.
      rewrite <- (main_launchers_outcome w a fs Hfs) in Hin.
      destruct fs; [done | discriminate].
  - intros e He. rewrite (supervise_launch_Raise w a fs e He).
    destruct e; simpl; rewrite flat_map_app, Hlaunch; reflexivity.
Qed.

Lemma waits_only_terminal_witness :
  let w := Sample.world Sample.all_stable false (Ok 0%Z) in
  let a := Sample.parsed "none" "html" None false false in
  exists p, last [8; 9] = Some p /\ waits (trace (main w a)) = [p].
Proof.
  intros w a.
  destruct (waits_only_terminal w a [launch_tts w; launch_html w] eq_refl)
    as [Hok _].
  apply Hok. reflexivity.
Defined.

Lemma started_app t1 t2 : started (t1 ++ t2) = started t1 ++ started t2.
Proof. apply List.filter_app. Qed.

Lemma launcher_started (w : World) (a : Namespace) f :
  In f (launchers_of w) ->
  length (started (trace (f a))) <= 1
  /\ forall p, outcome (f a) = Ok p -> length (started (trace (f a))) = 1.
Proof.
  intros [<-|[<-|[<-|[<-|[<-|[<-|[]]]]]]].
  - unfold launch_tts. by rewrite launch_process_started.
  - unfold launch_comm. by rewrite launch_process_started.
  - unfold launch_app. destruct (app a).
    + by rewrite launch_process_started.
    + split; [simpl; lia | done].
  - destruct (launch_html_trace w a) as (rest & -> & Hrest).
    rewrite started_app, launch_process_started.
    by destruct Hrest as [->|[url ->]].
  - unfold launch_openmct. destruct (fprime_openmct w).
    + done.
    + split; [simpl; lia | done].
  - unfold poll_telem. by rewrite launch_process_started.
Qed.

Lemma comprehension_started (a : Namespace) (fs : list (Namespace -> M proc)) :
  (forall f, In f fs ->
     length (started (trace (f a))) <= 1
     /\ forall p, outcome (f a) = Ok p -> length (started (trace (f a))) = 1) ->
  length (started (trace (comprehension a fs))) <= length fs
  /\ forall procs, outcome (comprehension a fs) = Ok procs ->
       length (started (trace (comprehension a fs))) = length fs.
Proof.
  induction fs as [|f fs IH]; intros Hfs; [by split|].
  destruct (Hfs f (or_introl eq_refl)) as [Hle Heq].
  destruct (IH (fun g Hg => Hfs g (or_intror Hg))) as [IHle IHeq].
  rewrite comprehension_cons.
  destruct (outcome (f a)) as [p|e] eqn:Hf; simpl.
  - rewrite started_app, length_app. split; [lia|].
    destruct (outcome (comprehension a fs)) as [procs|e]; [|done].
    intros _ _. rewrite (Heq p eq_refl), (IHeq procs eq_refl). reflexivity.
  - split; [lia | done].
Qed.

Lemma supervise_trace (w : World) (a : Namespace) fs :
  exists rest,
    trace (supervise w a fs) = trace (comprehension a fs) ++ rest
    /\ Forall (fun ev => match ev with
                         | EvPrint _ _ | EvWait _ => True
                         | _ => False
                         end) rest.
Proof.
  destruct (outcome (comprehension a fs)) as [procs|e] eqn:Hc.
  - destruct (last procs) as [p|] eqn:Hl.
    + rewrite (supervise_launch_Ok w a fs procs p Hc Hl).
      destruct (wait w p) as [z|[]]; simpl; rewrite <- ?app_assoc;
        eexists; (split; [reflexivity|]); by repeat constructor.
    + unfold supervise. destruct (comprehension a fs) as [t r].
      simpl in Hc. subst r. msimpl. rewrite Hl. simpl.
      eexists. rewrite <- app_assoc. split; [reflexivity|].
      by repeat constructor.
  - rewrite (supervise_launch_Raise w a fs e Hc).
    destruct e; simpl; eexists; (split; [reflexivity|]); by repeat constructor.
Qed.

Lemma supervise_started (w : World) (a : Namespace) fs :
  started (trace (supervise w a fs)) = started (trace (comprehension a fs)).
Proof.
  destruct (supervise_trace w a fs) as (rest & -> & Hrest).
  rewrite started_app.
  assert (started rest = []) as ->; [|apply app_nil_r].
  induction Hrest as [|ev rest Hev _ IH]; [done|].
  unfold started in *. simpl. by destruct ev.
Qed.

(** X9.  Every step of the plan starts one process: a run in which all the
    launchers return has started as many processes as the plan has steps,
    and no run starts more. *)
Theorem one_process_per_step (w : World) (a : Namespace) fs :
  outcome (main_launchers w a) = Ok fs ->
  length (started (trace (main w a))) <= length fs
  /\ forall procs, outcome (comprehension a fs) = Ok procs ->
       length (started (trace (main w a))) = length fs
       /\ length procs = length fs.
Proof.
  intros Hfs. rewrite (main_supervise w a fs Hfs). simpl.
  destruct (main_launchers_waits w a) as (_ & Hplan & _).
  rewrite started_app, Hplan, supervise_started. simpl.
  destruct (comprehension_started a fs) as [Hle Heq].
  { intros f Hf. apply (launcher_started w), (plan_spec_launchers w a).
    by rewrite <- (main_launchers_outcome w a fs Hfs). }
  split; [done|]. intros procs Hprocs.
  split; [by apply (Heq procs) | by apply (comprehension_length a)].
Qed.

Lemma one_process_per_step_witness :
  let w := Sample.world Sample.all_stable false (Ok 0%Z) in
  let a := Sample.parsed "ip" "html" (Some Sample.ref_app) false false in
  length (started (trace (main w a))) = 4 /\ length [8; 7; 5; 9] = 4.
Proof.
  intros w a.
  destruct (one_process_per_step w a
              [launch_tts w; launch_comm w; launch_app w; launch_html w] eq_refl)
    as [_ Heq].
  apply (Heq [8; 7; 5; 9]). reflexivity.
Defined.

(** X10.  [main] returns 1 exactly when a launcher or the final wait raises an
    [Exception]. *)
Theorem exit_code_one (w : World) (a : Namespace) fs :
  outcome (main_launchers w a) = Ok fs ->
  outcome (main w a) = Ok 1%Z
  <-> exists e, is_Exception e = true
        /\ (outcome (comprehension a fs) = Raise e
            \/ exists procs p, outcome (comprehension a fs) = Ok procs
                 /\ last procs = Some p /\ wait w p = Raise e).
Proof.
  intros Hfs. rewrite (main_supervise w a fs Hfs). simpl.
  destruct (outcome (comprehension a fs)) as [procs|e] eqn:Hc.
  - destruct (last procs) as [p|] eqn:Hl.
    + rewrite (supervise_launch_Ok w a fs procs p Hc Hl). split.
      * destruct (wait w p) as [z|e] eqn:Hw; [done|].
        intros Hone. exists e. split; [by destruct e|].
        right. by exists procs, p.
      * intros (e & He & [Hr|(procs' & p' & [= <-] & Hl' & Hw)]); [done|].
        rewrite Hl in Hl'. injection Hl' as <-. rewrite Hw. by destruct e.
    + apply last_None in Hl. subst procs.
      apply comprehension_length in Hc.
      pose proof (plan_spec_html w a) as Hin.
      rewrite <- (main_launchers_outcome w a fs Hfs) in Hin.
      destruct fs; [done | discriminate].
  - rewrite (supervise_launch_Raise w a fs e Hc). split.
    + intros Hone. exists e. split; [by destruct e | by left].
    + intros (e' & He & [[= <-]|(procs & p & [=] & _)]). by destruct e.
Qed.

Lemma exit_code_one_witness :
  outcome (main (Sample.world Sample.flask_unstable false (Ok 0%Z))
             (Sample.parsed "none" "html" None false false)) = Ok 1%Z.
Proof.
  set (w := Sample.world Sample.flask_unstable false (Ok 0%Z)).
  set (a := Sample.parsed "none" "html" None false false).
  apply (exit_code_one w a [launch_tts w; launch_html w] eq_refl).
  exists (AppWrapperException "Failed to run HTML GUI").
  split; [reflexivity|]. left. reflexivity.
Defined.

(** X11.  When the terminal process exits by itself, the wait returns and [main]
    returns 0: the run ends with the wait, with no message after it. *)
Theorem terminal_exit_is_clean (w : World) (a : Namespace) fs procs p z :
  outcome (main_launchers w a) = Ok fs ->
  outcome (comprehension a fs) = Ok procs -> last procs = Some p ->
  wait w p = Ok z ->
  outcome (main w a) = Ok 0%Z /\ last (trace (main w a)) = Some (EvWait p).
Proof.
  intros Hfs Hc Hl Hw. rewrite (main_supervise w a fs Hfs). simpl.
  rewrite (supervise_launch_Ok w a fs procs p Hc Hl), Hw. simpl.
  split; [done|].
  rewrite !app_assoc.
  change [EvPrint stdout
            "[INFO] F prime is now running. CTRL-C to shutdown all components.";
          EvWait p]
    with ([EvPrint stdout
             "[INFO] F prime is now running. CTRL-C to shutdown all components."]
          ++ [EvWait p]).
  rewrite app_assoc. apply last_snoc.
Qed.

Lemma terminal_exit_is_clean_witness :
  let w := Sample.world Sample.all_stable false (Ok 3%Z) in
  let a := Sample.parsed "none" "html" None false false in
  outcome (main w a) = Ok 0%Z /\ last (trace (main w a)) = Some (EvWait 9).
Proof.
  intros w a.
  apply (terminal_exit_is_clean w a [launch_tts w; launch_html w] [8; 9] 9 3%Z);
    reflexivity.
Defined.

(** X12.  An interrupt that arrives while a launcher runs ends the run as an
    interrupt during the wait does: the launchers behind it are not called,
    nothing is waited for, the interrupt is acknowledged and [main] returns
    0. *)
Theorem interrupt_while_launching (w : World) (a : Namespace)
    (pre post : list (Namespace -> M proc)) (f : Namespace -> M proc)
    (procs : list proc) :
  outcome (main_launchers w a) = Ok (pre ++ f :: post) ->
  outcome (comprehension a pre) = Ok procs ->
  outcome (f a) = Raise KeyboardInterrupt ->
  outcome (main w a) = Ok 0%Z
  /\ trace (main w a)
     = trace (main_launchers w a) ++ trace (comprehension a pre) ++ trace (f a)
       ++ [EvPrint stdout "[INFO] CTRL-C received. Exiting."].
Proof.
  intros Hfs Hpre Hf. rewrite (main_supervise w a _ Hfs). simpl.
  rewrite (supervise_launch_Raise w a _ KeyboardInterrupt)
    by (by rewrite (comprehension_app_Raise a pre post f procs KeyboardInterrupt)).
  rewrite (comprehension_app_Raise a pre post f procs KeyboardInterrupt) by done.
  simpl. by rewrite <- !app_assoc.
Qed.

Lemma interrupt_while_launching_witness :
  let w := {| sys_executable := "python3"; os_environ := ∅;
              fprime_openmct := false; str_cmd := join " ";
              std_pipeline_args := fun _ => []; comm_args := fun _ => [];
              poller_args := fun _ => [];
              run_wrapped_application := fun cmd _ _ _ =>
                if mem "flask" cmd then Raise KeyboardInterrupt else Ok 8;
              read_log := fun _ => ([], None);
              jsonifier := fun _ => Ok tt; write_json := fun _ => Ok tt;
              launch_openmct_server := Ok 1; wait := fun _ => Ok 0%Z |} in
  outcome (main w (Sample.parsed "none" "html" None false false)) = Ok 0%Z.
Proof.
  intros w.
  apply (interrupt_while_launching w (Sample.parsed "none" "html" None false false)
           [launch_tts w] [] (launch_html w) [8]); reflexivity.
Defined.

(** * Further properties of the launch plan *)

Lemma launchers_differ (w : World) (i j : nat) (f g : Namespace -> M proc) :
  launchers_of w !! i = Some f -> launchers_of w !! j = Some g -> i <> j -> f <> g.
Proof.
  intros Hi Hj Hij <-. apply Hij.
  exact (NoDup_lookup _ i j f (launchers_distinct w) Hi Hj).
Qed.

Lemma plan_spec_sublist (w : World) (a : Namespace) :
  plan_spec w a `sublist_of` launchers_of w.
Proof.
  unfold plan_spec, launchers_of.
  destruct (zmq a), (openmct a); repeat case_decide; simpl;
    solve [repeat first [apply sublist_nil | apply sublist_skip | apply sublist_cons]].
Qed.

Lemma launchers_pairwise (w : World) :
  launch_tts w <> launch_comm w /\
  launch_tts w <> launch_app w /\
  launch_tts w <> launch_html w /\
  launch_tts w <> launch_openmct w /\
  launch_tts w <> poll_telem w /\
  launch_comm w <> launch_app w /\
  launch_comm w <> launch_html w /\
  launch_comm w <> launch_openmct w /\
  launch_comm w <> poll_telem w /\
  launch_app w <> launch_html w /\
  launch_app w <> launch_openmct w /\
  launch_app w <> poll_telem w /\
  launch_html w <> launch_openmct w /\
  launch_html w <> poll_telem w /\
  launch_openmct w <> poll_telem w.
Proof.
  split; [by apply (launchers_differ w 0 1)|].
  split; [by apply (launchers_differ w 0 2)|].
  split; [by apply (launchers_differ w 0 3)|].
  split; [by apply (launchers_differ w 0 4)|].
  split; [by apply (launchers_differ w 0 5)|].
  split; [by apply (launchers_differ w 1 2)|].
  split; [by apply (launchers_differ w 1 3)|].
  split; [by apply (launchers_differ w 1 4)|].
  split; [by apply (launchers_differ w 1 5)|].
  split; [by apply (launchers_differ w 2 3)|].
  split; [by apply (launchers_differ w 2 4)|].
  split; [by apply (launchers_differ w 2 5)|].
  split; [by apply (launchers_differ w 3 4)|].
  split; [by apply (launchers_differ w 3 5)|].
  by apply (launchers_differ w 4 5).
Qed.

(** X13.  No launcher is planned twice, and each one is planned exactly under its
    condition: the relay unless zmq is selected, the adapter unless its kind
    is "none", the application when a path is configured and the adapter is
    "ip", the OpenMCT server and the poller when the bridge is enabled. *)
Theorem plan_membership (w : World) (a : Namespace) fs :
  outcome (main_launchers w a) = Ok fs ->
  NoDup fs
  /\ (In (launch_tts w) fs <-> zmq a = false)
  /\ (In (launch_comm w) fs <-> adapter a <> "none")
  /\ (In (launch_app w) fs <-> is_Some (app a) /\ adapter a = "ip")
  /\ (In (launch_openmct w) fs <-> openmct a = true)
  /\ (In (poll_telem w) fs <-> openmct a = true).
Proof.
  intros Hfs. apply main_launchers_outcome in Hfs. subst fs.
  split; [exact (sublist_NoDup _ _ (launchers_distinct w) (plan_spec_sublist w a))|].
  destruct (launchers_pairwise w)
    as (? & ? & ? & ? & ? & ? & ? & ? & ? & ? & ? & ? & ? & ? & ?).
  unfold plan_spec.
  destruct (zmq a), (openmct a); repeat case_decide; simpl;
    repeat split; try tauto; try congruence;
    intros; repeat match goal with
                   | H : _ \/ _ |- _ => destruct H
                   | H : False |- _ => destruct H
                   end; try congruence; try tauto.
Qed.

Lemma plan_membership_witness :
  let w := Sample.world Sample.all_stable false (Ok 0%Z) in
  let a := Sample.parsed "uart" "html" (Some Sample.ref_app) false false in
  In (launch_comm w) [launch_tts w; launch_comm w; launch_html w]
  /\ ~ In (launch_app w) [launch_tts w; launch_comm w; launch_html w].
Proof.
  intros w a.
  destruct (plan_membership w a [launch_tts w; launch_comm w; launch_html w] eq_refl)
    as (_ & _ & Hcomm & Happ & _).
  split.
  - apply Hcomm. discriminate.
  - intros Hin. apply Happ in Hin. destruct Hin as [_ Hip]. discriminate Hip.
Defined.

(** X14.  The last step of the plan, whose handle the supervisor waits for, is the
    web GUI, or the telemetry poller when the bridge is enabled. *)
Theorem terminal_launcher (w : World) (a : Namespace) fs :
  outcome (main_launchers w a) = Ok fs ->
  last fs = Some (if openmct a then poll_telem w else launch_html w).
Proof.
  intros Hfs. apply main_launchers_outcome in Hfs. subst fs.
  unfold plan_spec.
  destruct (zmq a), (openmct a); repeat case_decide; reflexivity.
Qed.

Lemma terminal_launcher_witness :
  let w := Sample.world Sample.all_stable true (Ok 0%Z) in
  let a := Sample.parsed "ip" "html" (Some Sample.ref_app) false true in
  last [launch_tts w; launch_comm w; launch_app w; launch_html w;
        launch_openmct w; poll_telem w] = Some (poll_telem w).
Proof.
  intros w a. apply (terminal_launcher w a). reflexivity.
Defined.

Lemma decide_app_not_ip {T} (a : Namespace) (x y : T) :
  (if decide (is_Some (app a) /\ adapter a <> "ip") then x else y)
  = match app a with
    | Some _ => if String.eqb (adapter a) "ip" then y else x
    | None => y
    end.
Proof.
  destruct (String.eqb_spec (adapter a) "ip") as [Hip|Hip], (app a) as [p|];
    case_decide as Hd; try reflexivity.
  - by destruct Hd as [_ Hd].
  - by destruct Hd as [[? [=]] _].
  - destruct Hd. by split; [eexists|].
  - by destruct Hd as [[? [=]] _].
Qed.

(** X15.  An application path with an adapter other than "ip" is not an error:
    the warning is printed, in that case only, and the plan is built. *)
Theorem app_without_ip_warns (w : World) (a : Namespace) :
  printed (trace (main_launchers w a))
  = (if decide (is_Some (app a) /\ adapter a <> "ip")
     then [(stdout, "[WARNING] App cannot be auto-launched without IP adapter")]
     else [])
  /\ (openmct a = false -> exists fs, outcome (main_launchers w a) = Ok fs).
Proof.
  split.
  - rewrite decide_app_not_ip. unfold main_launchers.
    bridge_cases w a; by core_cases a.
  - intros Ho. exists (plan_spec w a). apply main_launchers_ready.
    intros Hb. congruence.
Qed.

Lemma app_without_ip_warns_witness :
  exists fs,
    outcome (main_launchers (Sample.world Sample.all_stable false (Ok 0%Z))
               (Sample.parsed "uart" "html" (Some Sample.ref_app) false false))
    = Ok fs.
Proof.
  apply (app_without_ip_warns (Sample.world Sample.all_stable false (Ok 0%Z))
           (Sample.parsed "uart" "html" (Some Sample.ref_app) false false)).
  reflexivity.
Defined.

(** X16.  The OpenMCT files are generated outside of the [try] statement: when
    the dictionary cannot be read or one of the two files cannot be written,
    the exception leaves [main] as it is, not turned into exit code 1, and no
    process has been started. *)
Theorem bridge_generation_failure (w : World) (a : Namespace) (e : exn) :
  openmct a = true -> fprime_openmct w = true ->
  jsonifier w (dictionary a) = Raise e
  \/ (jsonifier w (dictionary a) = Ok tt
      /\ write_json w "FPrimeDeploymentTopologyAppDictionary" = Raise e)
  \/ (jsonifier w (dictionary a) = Ok tt
      /\ write_json w "FPrimeDeploymentTopologyAppDictionary" = Ok tt
      /\ write_json w "initial_states" = Raise e) ->
  outcome (main w a) = Raise e /\ started (trace (main w a)) = [].
Proof.
  intros Ho Hp Hfail. unfold main, main_launchers. rewrite Ho, Hp.
  destruct Hfail as [Hj|[[Hj Hw1]|(Hj & Hw1 & Hw2)]];
    rewrite ?Hj, ?Hw1, ?Hw2; by core_cases a.
Qed.

Lemma bridge_generation_failure_witness :
  let w := {| sys_executable := "python3"; os_environ := ∅;
              fprime_openmct := true; str_cmd := join " ";
              std_pipeline_args := fun _ => []; comm_args := fun _ => [];
              poller_args := fun _ => [];
              run_wrapped_application := fun _ _ _ _ => Ok 8;
              read_log := fun _ => ([], None);
              jsonifier := fun _ => Raise (OtherException "No such file");
              write_json := fun _ => Ok tt;
              launch_openmct_server := Ok 1; wait := fun _ => Ok 0%Z |} in
  let a := Sample.parsed "none" "html" None false true in
  outcome (main w a) = Raise (OtherException "No such file")
  /\ started (trace (main w a)) = [].
Proof.
  intros w a. apply (bridge_generation_failure w a); try reflexivity.
  left. reflexivity.
Defined.

Lemma no_bridge_events (t : list event) :
  Forall (fun ev => negb (bridge_event ev) = true) t -> bridge_events t = [].
Proof.
  intros Ht. induction Ht as [|ev t Hev _ IH]; [done|].
  unfold bridge_events in *. simpl.
  by destruct (bridge_event ev).
Qed.

Lemma launch_process_no_bridge w cmd logfile name env launch_time :
  Forall (fun ev => negb (bridge_event ev) = true)
    (trace (launch_process w cmd logfile name env launch_time)).
Proof.
  destruct (launch_process_trace w cmd logfile name env launch_time)
    as (rest & -> & Hrest).
  do 2 (constructor; [done|]).
  eapply Forall_impl; [exact Hrest|]. by intros [].
Qed.

(** X17.  With the bridge disabled the OpenMCT package is left alone, installed or
    not: no file is generated and no server is started, in the whole run. *)
Theorem bridge_untouched (w : World) (a : Namespace) :
  openmct a = false -> bridge_events (trace (main w a)) = [].
Proof.
  intros Ho. apply no_bridge_events.
  assert (Hready : bridge_ready w a) by (intros Hb; congruence).
  pose proof (main_launchers_ready w a Hready) as Hfs.
  rewrite (main_supervise w a _ Hfs). simpl.
  apply Forall_app. split.
  { unfold main_launchers. rewrite Ho.
    core_cases a; by repeat constructor. }
  destruct (supervise_trace w a (plan_spec w a)) as (rest & -> & Hrest).
  apply Forall_app. split.
  - apply (comprehension_Forall (fun ev => negb (bridge_event ev))).
    intros f. unfold plan_spec. rewrite Ho, !in_app_iff. simpl.
    intros [Hf|[Hf|[Hf|[[<-|[]]|[]]]]].
    + destruct (zmq a); [done|]. destruct Hf as [<-|[]].
      apply launch_process_no_bridge.
    + case_decide; [done|]. destruct Hf as [<-|[]].
      apply launch_process_no_bridge.
    + case_decide; [|done]. destruct Hf as [<-|[]].
      unfold launch_app. destruct (app a); [|by constructor].
      apply launch_process_no_bridge.
    + destruct (launch_html_trace w a) as (rest' & -> & Hrest').
      apply Forall_app. split; [apply launch_process_no_bridge|].
      destruct Hrest' as [->|[url ->]]; by repeat constructor.
  - eapply Forall_impl; [exact Hrest|]. by intros [].
Qed.

Lemma bridge_untouched_witness :
  bridge_events
    (trace (main (Sample.world Sample.all_stable true (Ok 0%Z))
              (Sample.parsed "ip" "html" (Some Sample.ref_app) false false))) = [].
Proof.
  apply (bridge_untouched (Sample.world Sample.all_stable true (Ok 0%Z))
           (Sample.parsed "ip" "html" (Some Sample.ref_app) false false)).
  reflexivity.
Defined.

Lemma commands_app t1 t2 : commands (t1 ++ t2) = commands t1 ++ commands t2.
Proof. apply flat_map_app. Qed.

(** X18.  The relay is up and the communication adapter exits within its window:
    [main] returns 1, its last message names the adapter, and the two
    commands of the relay and the adapter are the only ones that were run:
    neither the application nor the web GUI is started. *)
Theorem adapter_failure_stops_launch (w : World) (a : Namespace) (p : proc)
    (msg : string) :
  zmq a = false -> adapter a <> "none" -> bridge_ready w a ->
  run_wrapped_application w
    (BASE_MODULE_ARGUMENTS w
       ++ ["fprime_gds.executables.tcpserver"; "--port"; str_int (tts_port a);
           "--host"; tts_addr a])
    (Some (os_path_join (logs a) "ThreadedTCP.log")) None 5 = Ok p ->
  run_wrapped_application w (comm_cmd w a) None None 1
  = Raise (AppWrapperException msg) ->
  outcome (main w a) = Ok 1%Z
  /\ commands (trace (main w a))
     = [BASE_MODULE_ARGUMENTS w
          ++ ["fprime_gds.executables.tcpserver"; "--port"; str_int (tts_port a);
              "--host"; tts_addr a];
        comm_cmd w a]
  /\ last (trace (main w a))
     = Some (shutdown_message
               (AppWrapperException
                  ("Failed to run comm[" +:+ adapter a +:+ "] Application"))).
Proof.
  intros Hz Hn Hready Htts Hcomm.
  pose proof (main_launchers_ready w a Hready) as Hfs.
  assert (Hplan : exists post,
             plan_spec w a = [launch_tts w] ++ launch_comm w :: post).
  { unfold plan_spec. rewrite Hz. case_decide; [done|]. by eexists. }
  destruct Hplan as [post Hplan]. rewrite Hplan in Hfs.
  assert (Hrelay : launch_tts w a
                   = (trace (launch_tts w a), Ok p)).
  { unfold launch_tts. by rewrite (launch_process_Ok w _ _ _ _ None p Htts). }
  assert (Hadapter : outcome (launch_comm w a)
            = Raise (AppWrapperException
                       ("Failed to run comm[" +:+ adapter a +:+ "] Application"))).
  { unfold launch_comm.
    by rewrite (launch_process_failed w _ _ _ _ (Some 1%Z) msg Hcomm). }
  assert (Hpre : outcome (comprehension a [launch_tts w]) = Ok [p]).
  { rewrite comprehension_cons, Hrelay. reflexivity. }
  pose proof (comprehension_app_Raise a [launch_tts w] post (launch_comm w) [p] _
                Hpre Hadapter) as Hc.
  rewrite (main_supervise w a _ Hfs).
  rewrite (supervise_launch_Raise w a _ _ ltac:(by rewrite Hc)), Hc.
  cbn [trace outcome fst snd].
  split; [done|]. split.
  - destruct (main_launchers_waits w a) as (_ & _ & Hnone).
    rewrite !commands_app, Hnone.
    rewrite comprehension_cons, Hrelay. simpl.
    rewrite !commands_app. unfold launch_tts, launch_comm.
    rewrite !launch_process_commands. reflexivity.
  - rewrite !app_assoc. apply last_snoc.
Qed.

Lemma adapter_failure_stops_launch_witness :
  let w := Sample.world (fun cmd => negb (mem "fprime_gds.executables.comm" cmd))
             false (Ok 0%Z) in
  let a := Sample.parsed "ip" "html" (Some Sample.ref_app) false false in
  outcome (main w a) = Ok 1%Z
  /\ commands (trace (main w a))
     = [["/usr/bin/python3"; "-u"; "-m"; "fprime_gds.executables.tcpserver";
         "--port"; "50050"; "--host"; "0.0.0.0"];
        ["/usr/bin/python3"; "-u"; "-m"; "fprime_gds.executables.comm";
         "--comm-adapter"; "ip"; "--log-directly"]]
  /\ last (trace (main w a))
     = Some (shutdown_message
               (AppWrapperException "Failed to run comm[ip] Application")).
Proof.
  intros w a.
  apply (adapter_failure_stops_launch w a 8 "Failed to run application").
  - reflexivity.
  - discriminate.
  - intros Hb. discriminate Hb.
  - reflexivity.
  - reflexivity.
Defined.
